(** * JUNE: hospitals, their occupancy subgroups and the nearest-hospital query

    A shallow embedding of [june/groups/hospital.py]: the [Hospital] group
    with its three subgroups, the [Hospitals] supergroup with its ball tree
    over the hospital coordinates, and the properties the specification
    states about them. *)

From Stdlib Require Import ZArith QArith Lia.
From stdpp Require Import base option list sorting gmap strings.

Local Open Scope Z_scope.

(** ** Python exceptions and the exception-state monad *)

Inductive Exception : Set :=
  | AssertionError
  | AttributeError
  | TypeError
  | ValueError
  | IndexError.

Inductive result (A : Type) : Type :=
  | Ok (a : A)
  | Raise (e : Exception).
Arguments Ok {A} a.
Arguments Raise {A} e.

Definition result_bind {A B} (r : result A) (f : A -> result B) : result B :=
  match r with
  | Ok a => f a
  | Raise e => Raise e
  end.

(** A computation over a store [S]: it returns a value or raises, and in
    both cases hands back the store as the mutations made so far left it. *)
Definition M (S A : Type) : Type := S -> result A * S.

Definition ret {S A} (a : A) : M S A := fun s => (Ok a, s).
Definition raise {S A} (e : Exception) : M S A := fun s => (Raise e, s).
Definition bind {S A B} (m : M S A) (f : A -> M S B) : M S B :=
  fun s => match m s with
           | (Ok a, s') => f a s'
           | (Raise e, s') => (Raise e, s')
           end.
Definition get {S} : M S S := fun s => (Ok s, s).
Definition put {S} (s : S) : M S unit := fun _ => (Ok tt, s).
Definition lift {S A} (r : result A) : M S A := fun s => (r, s).

Declare Scope june_scope.
Delimit Scope june_scope with june.
Notation "'let*' x := m 'in' k" := (bind m (fun x => k))
  (at level 10, x name, m at level 100, k at level 200) : june_scope.

(** ** Symptom tags, persons, subgroups *)

(** [june.infection.SymptomTag]: the names are those of
    [index_to_maximum_symptoms_tag] in [health_index.py]. *)
Inductive SymptomTag : Set :=
  | asymptomatic
  | mild
  | severe
  | hospitalised
  | intensive_care
  | dead_home
  | dead_hospital
  | dead_icu.

#[global] Instance SymptomTag_eq_dec : EqDecision SymptomTag.
Proof. solve_decision. Defined.

(** [Hospital.SubgroupType], an [IntEnum]. *)
Inductive SubgroupType : Set :=
  | workers
  | patients
  | icu_patients.

#[global] Instance SubgroupType_eq_dec : EqDecision SubgroupType.
Proof. solve_decision. Defined.

Definition SubgroupType_value (t : SubgroupType) : Z :=
  match t with
  | workers => 0
  | patients => 1
  | icu_patients => 2
  end.

(** [june.demography.Person] is not among the sources. The hospital
    code knows a person through its identity and two attributes:
    [person.infection] ([None] for somebody who is not infected, else an
    object with a [tag]) and [person.subgroups], the object whose
    attributes, one per activity, point at the subgroup the person is in
    for that activity (a pair of the group's id and the subgroup's type). *)
Record Person : Type := mkPerson {
  person_id : nat;
  infection : option SymptomTag;
  person_subgroups : gmap string (nat * SubgroupType)
}.

(** Modelled from the spec: [Subgroup] of [june/groups], not among the
    sources: "a multiset of person references" (3), kept in the order
    of arrival; [size] is the number of people and [append] adds one. *)
Record Subgroup : Type := mkSubgroup {
  people : list nat
}.

Definition size (sg : Subgroup) : Z := Z.of_nat (length (people sg)).

Definition Subgroup_append (sg : Subgroup) (p : nat) : Subgroup :=
  {| people := people sg ++ [p] |}.

(** ** Hospital *)

(** A latitude and a longitude, two numbers. A float can also be a NaN
    or an infinity, and on an array that holds one [sklearn]'s
    [BallTree] raises [ValueError]; such a coordinate is not a value of
    this type, so that everything below is about coordinates that are
    numbers. *)
Definition Coord : Type := Q * Q.

Record Hospital : Type := mkHospital {
  id : nat;
  n_beds : Z;
  n_icu_beds : Z;
  coordinates : option Coord;
  area : option string;
  trust_code : option string;
  sg_workers : Subgroup;
  sg_patients : Subgroup;
  sg_icu_patients : Subgroup
}.

(** [self[subgroup_type]], that is [self.subgroups[subgroup_type]]. *)
Definition getitem (self : Hospital) (t : SubgroupType) : Subgroup :=
  match t with
  | workers => sg_workers self
  | patients => sg_patients self
  | icu_patients => sg_icu_patients self
  end.

Definition setitem (self : Hospital) (t : SubgroupType) (sg : Subgroup) : Hospital :=
  match t with
  | workers =>
      mkHospital (id self) (n_beds self) (n_icu_beds self) (coordinates self)
        (area self) (trust_code self) sg (sg_patients self) (sg_icu_patients self)
  | patients =>
      mkHospital (id self) (n_beds self) (n_icu_beds self) (coordinates self)
        (area self) (trust_code self) (sg_workers self) sg (sg_icu_patients self)
  | icu_patients =>
      mkHospital (id self) (n_beds self) (n_icu_beds self) (coordinates self)
        (area self) (trust_code self) (sg_workers self) (sg_patients self) sg
  end.

(** [Hospital.__init__]. Its [super().__init__()] is [Group.__init__],
    not among the sources: by the spec (3) the group gets its unique id
    on construction, here the value [next_id] of the class's counter,
    and its subgroups, one per subgroup type, start empty. *)
Definition Hospital_init (next_id : nat) (n_beds n_icu_beds : Z)
    (area : option string) (coordinates : option Coord)
    (trust_code : option string) : Hospital :=
  {| id := next_id;
     n_beds := n_beds;
     n_icu_beds := n_icu_beds;
     coordinates := coordinates;
     area := area;
     trust_code := trust_code;
     sg_workers := mkSubgroup [];
     sg_patients := mkSubgroup [];
     sg_icu_patients := mkSubgroup [] |}.

#[global] Instance Hospital_inhabited : Inhabited Hospital :=
  populate (Hospital_init 0 0 0 None None None).

(** Modelled from the spec: [Group.add] of [june/groups], not among the
    sources. It "inserts person into the named subgroup" (4.1), with no
    check that the person is already somewhere and none of the capacity.
    That is all the spec says of it. What the [activity] argument is for
    the spec does not say: here the subgroup is recorded on the person
    under the attribute that [activity] names (the attribute that the
    commented-out [release_as_patient] of [hospital.py] resets), so that
    two calls with different activities are different calls. The
    numbered properties below are not about that record. *)
Definition Group_add (activity : string) (subgroup_type : SubgroupType)
    : M (Hospital * Person) unit :=
  fun '(self, person) =>
    let self' :=
      setitem self subgroup_type
        (Subgroup_append (getitem self subgroup_type) (person_id person)) in
    let person' :=
      {| person_id := person_id person;
         infection := infection person;
         person_subgroups :=
           <[activity := (id self, subgroup_type)]> (person_subgroups person) |} in
    (Ok tt, (self', person')).

(** [Hospital.full]: [self[patients].size >= self.n_beds]. *)
Definition full (self : Hospital) : bool :=
  n_beds self <=? size (getitem self patients).

(** [Hospital.full_ICU]. *)
Definition full_ICU (self : Hospital) : bool :=
  n_icu_beds self <=? size (getitem self icu_patients).

(** [Hospital.add(person, subgroup_type=workers)] for a subgroup type
    that is a member of the enum ([Hospital_add_any] below takes any
    value); the hospital and the person are the store. *)
Definition Hospital_add (subgroup_type : SubgroupType) : M (Hospital * Person) unit :=
  if bool_decide (subgroup_type ∈ [patients; icu_patients]) then
    Group_add "medical_facility" subgroup_type
  else
    Group_add "primary_activity" workers.

(** Python does not hold a caller to the enum: [subgroup_type] can be any
    value. The values told apart here are a member of
    [Hospital.SubgroupType], a plain integer (which is also what the
    member of another group's [IntEnum] and the booleans are, [True]
    being 1), [None], and a string; an object that equals no integer
    behaves as [None] and the strings do. *)
Inductive PyValue : Type :=
  | PyTag (t : SubgroupType)
  | PyInt (z : Z)
  | PyNone
  | PyStr (s : string).

(** [value == tag]: an [IntEnum] member is equal to the integer of its
    value and to nothing that is not a number. *)
Definition py_eq (value : PyValue) (tag : SubgroupType) : bool :=
  match value with
  | PyTag t => bool_decide (t = tag)
  | PyInt z => z =? SubgroupType_value tag
  | PyNone => false
  | PyStr _ => false
  end.

(** [value in tags]. *)
Definition py_in (value : PyValue) (tags : list SubgroupType) : bool :=
  existsb (py_eq value) tags.

(** [self.subgroups[value]], as [self.subgroups[self.SubgroupType.patients]]
    of the source reads it: [subgroups] is the sequence of the three
    subgroups, indexed by an integer (a negative one counts from the end)
    and by nothing else. *)
Definition py_index (value : PyValue) : result SubgroupType :=
  match value with
  | PyTag t => Ok t
  | PyInt z =>
      if (z =? 0) || (z =? -3) then Ok workers
      else if (z =? 1) || (z =? -2) then Ok patients
      else if (z =? 2) || (z =? -1) then Ok icu_patients
      else Raise IndexError
  | PyNone => Raise TypeError
  | PyStr _ => Raise TypeError
  end.

(** [Hospital.add(person, subgroup_type)] for any value of
    [subgroup_type]; on a member of the enum it is [Hospital_add]. *)
Definition Hospital_add_any (subgroup_type : PyValue) : M (Hospital * Person) unit :=
  if py_in subgroup_type [patients; icu_patients] then
    match py_index subgroup_type with
    | Ok t => Group_add "medical_facility" t
    | Raise e => raise e
    end
  else
    Group_add "primary_activity" workers.

Definition Hospital_icu_patients (self : Hospital) : Subgroup := getitem self icu_patients.
Definition Hospital_patients (self : Hospital) : Subgroup := getitem self patients.

(** [Hospital.add_as_patient(person)]. Reading [person.infection.tag] of
    a person whose [infection] is [None] raises [AttributeError]. *)
Definition add_as_patient : M (Hospital * Person) unit :=
  (let* st := get in
   match infection (snd st) with
   | None => raise AttributeError
   | Some tag =>
       if bool_decide (tag = intensive_care) then Hospital_add icu_patients
       else if bool_decide (tag = hospitalised) then Hospital_add patients
       else raise AssertionError
   end)%june.

(** ** The ball tree and the collection *)

(** [sklearn.neighbors.BallTree]: what the collection reads of it is
    [data], the rows it was built from. *)
Record BallTree : Type := mkBallTree {
  data : list Coord
}.

(** The numerical library the collection calls: [np.deg2rad] on one
    number and [BallTree.query(X, k, sort_results=True)] for a single
    query row, which returns the row of distances and the row of
    neighbour indices, or raises. *)
Class Numerics : Type := {
  deg2rad : Q -> Q;
  BallTree_query : BallTree -> Coord -> Z -> result (list Q * list nat)
}.

Record Hospitals : Type := mkHospitals {
  members : list Hospital;
  box_mode : bool;
  neighbour_hospitals : option Z;
  hospital_trees : option BallTree
}.

Section Collection.
Context `{Numerics}.

Definition deg2rad_row (c : Coord) : Coord := (deg2rad c.1, deg2rad c.2).

(** [Hospitals.init_trees]. *)
Definition init_trees (self : Hospitals) (hospital_coordinates : list Coord) : Hospitals :=
  {| members := members self;
     box_mode := box_mode self;
     neighbour_hospitals := neighbour_hospitals self;
     hospital_trees := Some (mkBallTree (deg2rad_row <$> hospital_coordinates)) |}.

(** [Hospitals.__init__]. [Supergroup.__init__] keeps [members] as the
    ordered sequence it is given. [np.deg2rad] of an array holding a
    [None] raises [TypeError]; the attribute [hospital_trees] does not
    exist until [init_trees] has run. *)
Definition Hospitals_init (hospitals : list Hospital)
    (neighbour_hospitals : option Z) (box_mode ball_tree : bool) : result Hospitals :=
  let self :=
    {| members := hospitals;
       box_mode := box_mode;
       neighbour_hospitals := neighbour_hospitals;
       hospital_trees := None |} in
  if ball_tree && bool_decide (members self ≠ []) then
    match mapM coordinates hospitals with
    | Some coords => Ok (init_trees self coords)
    | None => Raise TypeError
    end
  else Ok self.

(** [Hospitals.for_box_mode]; [next_id] is the group id counter. *)
Definition for_box_mode (next_id : nat) : result Hospitals :=
  let hospitals := [] in
  let hospitals := hospitals ++ [Hospital_init next_id 10 2 None None None] in
  let hospitals := hospitals ++ [Hospital_init (S next_id) 5000 5000 None None None] in
  Hospitals_init hospitals None true false.

(** [Hospitals.get_closest_hospitals_idx]. *)
Definition get_closest_hospitals_idx (self : Hospitals) (coordinates : Coord) (k : Z)
    : result (list nat) :=
  match hospital_trees self with
  | None => Raise AttributeError
  | Some tree =>
      let k := Z.min k (Z.of_nat (length (data tree))) in
      result_bind (BallTree_query tree (deg2rad_row coordinates) k)
        (fun '(distances, neighbours) => Ok neighbours)
  end.

(** [self.members[index]] for an index the tree returned (never
    negative); past the end Python raises [IndexError]. *)
Definition member_at (self : Hospitals) (index : nat) : result Hospital :=
  match members self !! index with
  | Some h => Ok h
  | None => Raise IndexError
  end.

Fixpoint collect {A B} (f : A -> result B) (l : list A) : result (list B) :=
  match l with
  | [] => Ok []
  | x :: l' =>
      result_bind (f x) (fun y =>
      result_bind (collect f l') (fun ys => Ok (y :: ys)))
  end.

(** [Hospitals.get_closest_hospitals]. *)
Definition get_closest_hospitals (self : Hospitals) (coordinates : Coord) (k : Z)
    : result (list Hospital) :=
  match hospital_trees self with
  | None => Raise AttributeError
  | Some tree =>
      let k := Z.min k (Z.of_nat (length (data tree))) in
      result_bind (BallTree_query tree (deg2rad_row coordinates) k)
        (fun '(distances, neighbours) => collect (member_at self) neighbours)
  end.

End Collection.

(** ** The Geo-Index of the specification *)

(** Modelled from the spec: the order of the answer of the Geo-Index
    (4.2), "sorted ascending by distance", ties "broken by underlying
    index order". *)
Definition nearer (a b : Q * nat) : Prop :=
  match (a.1 ?= b.1)%Q with
  | Lt => True
  | Eq => (a.2 <= b.2)%nat
  | Gt => False
  end.

#[global] Instance nearer_dec : RelDecision nearer.
Proof.
  intros a b. unfold nearer.
  destruct (a.1 ?= b.1)%Q.
  - apply le_dec.
  - left. exact I.
  - right. intros [].
Defined.

Section GeoIndex.
(** The floating-point functions stay parameters: [np.deg2rad] and the
    great-circle metric of the tree, whose values are compared as the
    rationals that finite floats are. *)
Variable np_deg2rad : Q -> Q.
Variable haversine : Coord -> Coord -> Q.

(** Modelled from the spec: the rows of the tree, each paired with its
    distance from the point and its position, in the order of the
    answer. *)
Definition ranked (tree : BallTree) (point : Coord) : list (Q * nat) :=
  merge_sort nearer (imap (fun i row => (haversine point row, i)) (data tree)).

(** Modelled from the spec: the query of the Geo-Index (4.2), which in
    the code is [sklearn]'s [BallTree.query] and is not among the
    sources. It "returns the k nearest indices together with their
    distances, sorted ascending by distance", with ties "broken by
    underlying index order"; asking for more neighbours than the tree
    has rows is an error ("never request more neighbors than exist").
    The conversion to radians and the clamp of [k] are the caller's. *)
Definition GeoIndex_query (tree : BallTree) (point : Coord) (k : Z)
    : result (list Q * list nat) :=
  if Z.of_nat (length (data tree)) <? k then Raise ValueError
  else
    let nearest := take (Z.to_nat k) (ranked tree point) in
    Ok (nearest.*1, nearest.*2).

#[local] Instance GeoIndex : Numerics :=
  {| deg2rad := np_deg2rad; BallTree_query := GeoIndex_query |}.

(** The part of the ranking that a lookup with [k] gets back, the
    point given in degrees. *)
Definition nearest (tree : BallTree) (p : Coord) (k : Z) : list (Q * nat) :=
  take (Z.to_nat (Z.min k (Z.of_nat (length (data tree)))))
    (ranked tree (deg2rad_row p)).

(** The great-circle distance of a hospital from a point given in
    degrees, when the hospital has coordinates. *)
Definition distance_from (p : Coord) (h : Hospital) : option Q :=
  match coordinates h with
  | Some c => Some (haversine (deg2rad_row p) (deg2rad_row c))
  | None => None
  end.

Definition not_farther (p : Coord) (h1 h2 : Hospital) : Prop :=
  match distance_from p h1, distance_from p h2 with
  | Some d1, Some d2 => (d1 <= d2)%Q
  | _, _ => False
  end.

(** *** The admission policy *)

(** Modelled from the spec: the "relevant capacity threshold" (4.3) of
    a classification, [full_ICU] for the ICU level, [full] for the ward
    level, none for the rest. *)
Definition threshold (tag : SymptomTag) : option (Hospital -> bool) :=
  if bool_decide (tag = intensive_care) then Some full_ICU
  else if bool_decide (tag = hospitalised) then Some full
  else None.

(** Run a computation of one hospital on the member at [index] of the
    collection: the member is the very object the computation mutates. *)
Definition on_member {A} (index : nat) (m : M (Hospital * Person) A)
    : M (Hospitals * Person) A :=
  fun '(self, person) =>
    match members self !! index with
    | None => (Raise IndexError, (self, person))
    | Some h =>
        let '(r, (h', person')) := m (h, person) in
        (r, ({| members := <[index := h']> (members self);
                box_mode := box_mode self;
                neighbour_hospitals := neighbour_hospitals self;
                hospital_trees := hospital_trees self |}, person'))
    end.

(** Modelled from the spec: the position, among the candidates, of the
    hospital to admit to (4.3): the first one under its threshold, else
    the one the random source picks; [draw] is the number the injected
    random source (9) yields, reduced to a position. *)
Definition choose (is_full : Hospital -> bool) (candidates : list Hospital)
    (draw : nat) : nat :=
  match list_find (fun h => is_full h = false) candidates with
  | Some (j, _) => j
  | None => (draw mod length candidates)%nat
  end.

(** Modelled from the spec: the admission policy (4.3), which the
    docstring of [Hospitals.__init__] announces and no source file
    implements. Consider the [neighbour_hospitals] nearest hospitals in
    ascending distance; admit into the first whose relevant threshold
    is not reached; if there is none, admit into one of these
    candidates drawn uniformly at random. The result is the index, in
    [members], of the hospital admitted to. A classification that does
    not warrant admission fails as [add_as_patient] does; with no
    candidate there is nothing to draw from. *)
Definition allocate_patient (location : Coord) (draw : nat)
    : M (Hospitals * Person) nat :=
  (let* st := get in
   let self := st.1 in
   let person := st.2 in
   match infection person with
   | None => raise AttributeError
   | Some tag =>
       match threshold tag with
       | None => raise AssertionError
       | Some is_full =>
           match neighbour_hospitals self with
           | None => raise TypeError
           | Some k =>
               let* neighbours := lift (get_closest_hospitals_idx self location k) in
               let* candidates := lift (get_closest_hospitals self location k) in
               match neighbours !! choose is_full candidates draw with
               | None => raise ValueError
               | Some index =>
                   let* _ := on_member index add_as_patient in
                   ret index
               end
           end
       end
   end)%june.

End GeoIndex.

(** A run of additions to one subgroup of one hospital, each on the
    hospital as the one before left it. *)
Definition add_all (subgroup_type : SubgroupType) (persons : list Person)
    (self : Hospital) : Hospital :=
  fold_left (fun h person => (Hospital_add subgroup_type (h, person)).2.1) persons self.

(** ** The area of a hospital *)

(** [june.geography] is not among the sources. The hospital refers to
    its area, the area to its super area and the super area to its
    region; the model refers to each of these objects by its name and
    reads their attributes through the three functions of this class:
    [area.super_area] and [super_area.region], which may hold [None],
    and [region.name]. *)
Class Geography : Type := {
  Area_super_area : string -> option string;
  SuperArea_region : string -> option string;
  Region_name : string -> string
}.

Section Accessors.
Context `{Geography}.

(** [Hospital.super_area]: [self.area.super_area]. An attribute of
    [None] cannot be read. *)
Definition Hospital_super_area (self : Hospital) : result (option string) :=
  match area self with
  | None => Raise AttributeError
  | Some a => Ok (Area_super_area a)
  end.

(** [Hospital.region]: [self.super_area.region]. *)
Definition Hospital_region (self : Hospital) : result (option string) :=
  result_bind (Hospital_super_area self) (fun super_area =>
    match super_area with
    | None => Raise AttributeError
    | Some sa => Ok (SuperArea_region sa)
    end).

(** [Hospital.region_name]: [self.region.name]. *)
Definition Hospital_region_name (self : Hospital) : result string :=
  result_bind (Hospital_region self) (fun region =>
    match region with
    | None => Raise AttributeError
    | Some r => Ok (Region_name r)
    end).

End Accessors.

(** ** Hospitals from a data frame *)

(** A row of the hospital data frame, with the columns the code reads
    and the label that is the row's index when the file is read with
    [index_col=4], the name of the area. The latitude and the longitude
    are numbers: a row whose cell is empty in the file (a NaN in the
    data frame), on which the ball tree cannot be built, is not a row of
    this type. *)
Record HospitalRow : Type := mkHospitalRow {
  row_index : string;
  latitude : Q;
  longitude : Q;
  beds : Z;
  icu_beds : Z;
  code : string
}.

(** [Hospitals.create_hospital_from_df_row]; the area object is referred
    to by its name. *)
Definition create_hospital_from_df_row (next_id : nat) (area : string)
    (row : HospitalRow) : Hospital :=
  let coordinates := (latitude row, longitude row) in
  let n_beds := beds row in
  let n_icu_beds := icu_beds row in
  let trust_code := code row in
  Hospital_init next_id n_beds n_icu_beds (Some area) (Some coordinates) (Some trust_code).

(** [Hospitals.init_hospitals]: one hospital per row, appended in the
    order of the rows. The id counter stands at [next_id] before the
    loop, so at [next_id] plus the hospitals made so far within it. *)
Definition init_hospitals (next_id : nat) (hospital_df : list HospitalRow)
    : list Hospital :=
  fold_left
    (fun hospitals row =>
       let n_beds := beds row in
       let n_icu_beds := icu_beds row in
       let trust_code := code row in
       let coordinates := (latitude row, longitude row) in
       hospitals ++
         [Hospital_init (next_id + length hospitals) n_beds n_icu_beds
            None (Some coordinates) (Some trust_code)])
    hospital_df [].

(** [hospital_df.loc[name]]: the rows under the label, in their order. *)
Definition loc (hospital_df : list HospitalRow) (name : string) : list HospitalRow :=
  filter (fun row => row_index row = name) hospital_df.

(** The loop of [Hospitals.for_geography] over [geography.areas], the
    areas given by their names. A label that owns one row yields a
    [Series], several rows a data frame whose rows are walked; the loop
    is left as soon as [hospitals] has [total_hospitals] entries. *)
Fixpoint for_geography_loop (hospital_df : list HospitalRow) (total_hospitals : nat)
    (next_id : nat) (areas : list string) (hospitals : list Hospital) : list Hospital :=
  match areas with
  | [] => hospitals
  | area :: areas' =>
      if bool_decide (area ∈ row_index <$> hospital_df) then
        let hospitals_in_area := loc hospital_df area in
        let hospitals :=
          match hospitals_in_area with
          | [row] =>
              hospitals ++
                [create_hospital_from_df_row (next_id + length hospitals) area row]
          | rows =>
              fold_left
                (fun hospitals row =>
                   hospitals ++
                     [create_hospital_from_df_row (next_id + length hospitals) area row])
                rows hospitals
          end in
        if bool_decide (length hospitals = total_hospitals) then hospitals
        else for_geography_loop hospital_df total_hospitals next_id areas' hospitals
      else for_geography_loop hospital_df total_hospitals next_id areas' hospitals
  end.

(** What the loop gathers when it is never left early: for each area in
    turn, the rows under its name. *)
Definition rows_by_area (areas : list string) (hospital_df : list HospitalRow)
    : list (string * HospitalRow) :=
  areas ≫= (fun area => (fun row => (area, row)) <$> loc hospital_df area).

(** The hospitals made, one after the other, of rows paired with their
    area, the id counter standing at [next_id]. *)
Definition hospitals_of_rows (next_id : nat) (pairs : list (string * HospitalRow))
    : list Hospital :=
  imap (fun i ar => create_hospital_from_df_row (next_id + i) ar.1 ar.2) pairs.

Section Construction.
Context `{Numerics}.

(** [Hospitals.from_file], from the data frame read and the value the
    configuration holds for [neighbour_hospitals]. On rows whose
    coordinates are numbers, the only rows here, the tree can be built;
    on a NaN the source raises [ValueError] from [BallTree]. *)
Definition from_file (next_id : nat) (hospital_df : list HospitalRow)
    (neighbour_hospitals : option Z) : result Hospitals :=
  let hospitals := init_hospitals next_id hospital_df in
  Hospitals_init hospitals neighbour_hospitals false true.

(** [Hospitals.for_geography], from the names of [geography.areas], the
    data frame read and the configured [neighbour_hospitals]; as for
    [from_file], on rows whose coordinates are numbers. *)
Definition for_geography (next_id : nat) (areas : list string)
    (hospital_df : list HospitalRow) (neighbour_hospitals : option Z)
    : result Hospitals :=
  let area_names := areas in
  let hospital_df := filter (fun row => row_index row ∈ area_names) hospital_df in
  let total_hospitals := length hospital_df in
  let hospitals := for_geography_loop hospital_df total_hospitals next_id areas [] in
  Hospitals_init hospitals neighbour_hospitals false true.

End Construction.

(** ** A small world *)

(** Three hospitals on a line, used to run the definitions. The metric
    of the runs is the squared planar distance and the conversion of
    degrees leaves the number as it is: stand-ins for the two
    floating-point functions, which every statement below leaves
    arbitrary. *)
Module Sample.

Definition planar (a b : Coord) : Q :=
  ((a.1 - b.1) * (a.1 - b.1) + (a.2 - b.2) * (a.2 - b.2))%Q.

Definition unit_degrees (x : Q) : Q := x.

Definition numerics : Numerics := GeoIndex unit_degrees planar.

Definition west : Hospital := Hospital_init 0 1 0 None (Some (0 # 1, 0 # 1)%Q) None.
Definition east : Hospital := Hospital_init 1 2 1 None (Some (5 # 1, 0 # 1)%Q) None.
Definition centre : Hospital := Hospital_init 2 3 1 None (Some (2 # 1, 0 # 1)%Q) None.

Definition tree : BallTree :=
  mkBallTree [(0 # 1, 0 # 1)%Q; (5 # 1, 0 # 1)%Q; (2 # 1, 0 # 1)%Q].

Definition world : Hospitals :=
  mkHospitals [west; east; centre] false (Some 2) (Some tree).

(** The same three hospitals, the western one with its only bed taken. *)
Definition west_taken : Hospital := setitem west patients (mkSubgroup [7%nat]).

Definition busy_world : Hospitals :=
  mkHospitals [west_taken; east; centre] false (Some 2) (Some tree).

(** Three hospitals without a single bed. *)
Definition no_beds (h : Hospital) : Hospital :=
  mkHospital (id h) 0 0 (coordinates h) (area h) (trust_code h)
    (sg_workers h) (sg_patients h) (sg_icu_patients h).

Definition full_world : Hospitals :=
  mkHospitals [no_beds west; no_beds east; no_beds centre] false (Some 2) (Some tree).

Definition box_world : Hospitals :=
  mkHospitals
    [Hospital_init 0 10 2 None None None; Hospital_init 1 5000 5000 None None None]
    true None None.

Definition ward_patient : Person := mkPerson 42 (Some hospitalised) ∅.
Definition icu_patient : Person := mkPerson 43 (Some intensive_care) ∅.
Definition mild_case : Person := mkPerson 44 (Some mild) ∅.
Definition nurse : Person := mkPerson 45 None ∅.

End Sample.

(** Rows and a geography to go with the small world. *)
Module Records.

Definition north_a : HospitalRow := mkHospitalRow "north" (0 # 1) (0 # 1) 10 1 "N1".
Definition north_b : HospitalRow := mkHospitalRow "north" (1 # 1) (0 # 1) 20 2 "N2".
Definition south : HospitalRow := mkHospitalRow "south" (2 # 1) (0 # 1) 30 3 "S1".
Definition abroad : HospitalRow := mkHospitalRow "abroad" (9 # 1) (9 # 1) 40 4 "X1".

Definition frame : list HospitalRow := [north_a; south; north_b; abroad].

Definition atlas : Geography :=
  {| Area_super_area := fun a => if decide (a = "north") then Some "uplands" else None;
     SuperArea_region := fun sa => if decide (sa = "uplands") then Some "R1" else None;
     Region_name := fun r => ("region " ++ r)%string |}.

(** The collection of the whole frame, and the one of its southern and
    northern rows, the id counter at 5. *)
Definition filed : Hospitals :=
  mkHospitals (init_hospitals 5 frame) false (Some 3)
    (Some (mkBallTree
             [(0 # 1, 0 # 1)%Q; (2 # 1, 0 # 1)%Q; (1 # 1, 0 # 1)%Q; (9 # 1, 9 # 1)%Q])).

Definition mapped : Hospitals :=
  mkHospitals (hospitals_of_rows 5 (rows_by_area ["south"; "north"] frame))
    false (Some 3)
    (Some (mkBallTree [(2 # 1, 0 # 1)%Q; (0 # 1, 0 # 1)%Q; (1 # 1, 0 # 1)%Q])).

End Records.

(** * Properties *)

(** ** One hospital *)

Lemma getitem_setitem (h : Hospital) (t : SubgroupType) (sg : Subgroup) :
  getitem (setitem h t sg) t = sg.
Proof. destruct t; reflexivity. Qed.

Lemma getitem_setitem_ne (h : Hospital) (t u : SubgroupType) (sg : Subgroup) :
  t <> u -> getitem (setitem h t sg) u = getitem h u.
Proof. destruct t, u; intros Hne; try reflexivity; contradiction. Qed.

Lemma size_append (sg : Subgroup) (p : nat) :
  size (Subgroup_append sg p) = size sg + 1.
Proof.
  unfold size, Subgroup_append. simpl.
  rewrite length_app. simpl. lia.
Qed.

Lemma setitem_static (h : Hospital) (t : SubgroupType) (sg : Subgroup) :
  id (setitem h t sg) = id h /\
  n_beds (setitem h t sg) = n_beds h /\
  n_icu_beds (setitem h t sg) = n_icu_beds h /\
  coordinates (setitem h t sg) = coordinates h.
Proof. destruct t; repeat split. Qed.

(** What [Group_add] leaves behind. *)
Lemma Group_add_spec (activity : string) (t : SubgroupType) (h : Hospital) (p : Person) :
  exists h' p',
    Group_add activity t (h, p) = (Ok tt, (h', p')) /\
    people (getitem h' t) = people (getitem h t) ++ [person_id p] /\
    (forall u, u <> t -> getitem h' u = getitem h u) /\
    person_subgroups p' !! activity = Some (id h, t) /\
    coordinates h' = coordinates h /\
    n_beds h' = n_beds h /\ n_icu_beds h' = n_icu_beds h.
Proof.
  eexists _, _. split; [reflexivity |].
  rewrite getitem_setitem. simpl.
  split; [reflexivity |].
  split.
  { intros u Hu. apply getitem_setitem_ne. congruence. }
  split; [apply lookup_insert_eq |].
  destruct (setitem_static h t (Subgroup_append (getitem h t) (person_id p)))
    as (_ & Hb & Hi & Hc).
  auto.
Qed.

Lemma Hospital_add_medical (t : SubgroupType) :
  t = patients \/ t = icu_patients ->
  Hospital_add t = Group_add "medical_facility" t.
Proof. intros [-> | ->]; reflexivity. Qed.

Lemma Hospital_add_other (t : SubgroupType) :
  t <> patients -> t <> icu_patients ->
  Hospital_add t = Group_add "primary_activity" workers.
Proof. destruct t; intros H1 H2; try reflexivity; contradiction. Qed.

(** C2. [add_as_patient] routes by the person's classification: the
    ICU-level tag puts the person into [icu_patients], the hospitalised
    tag into [patients], each leaving the other subgroups as they were;
    every other tag raises [AssertionError], and then neither the
    hospital nor the person has changed. *)
Theorem add_as_patient_routes (h : Hospital) (p : Person) (tag : SymptomTag) :
  infection p = Some tag ->
  exists r h' p',
    add_as_patient (h, p) = (r, (h', p')) /\
    (tag = intensive_care ->
       r = Ok tt /\
       people (Hospital_icu_patients h') = people (Hospital_icu_patients h) ++ [person_id p] /\
       Hospital_patients h' = Hospital_patients h /\
       getitem h' workers = getitem h workers) /\
    (tag = hospitalised ->
       r = Ok tt /\
       people (Hospital_patients h') = people (Hospital_patients h) ++ [person_id p] /\
       Hospital_icu_patients h' = Hospital_icu_patients h /\
       getitem h' workers = getitem h workers) /\
    (tag <> intensive_care -> tag <> hospitalised ->
       r = Raise AssertionError /\ h' = h /\ p' = p).
Proof.
  intros Htag.
  unfold add_as_patient, bind, get. cbn [snd]. rewrite Htag.
  destruct (decide (tag = intensive_care)) as [-> | Hicu].
  { destruct (Group_add_spec "medical_facility" icu_patients h p)
      as (h' & p' & Hrun & Hpeople & Hothers & _).
    exists (Ok tt), h', p'. split; [exact Hrun |].
    split; [| split; [discriminate | congruence]].
    intros _. unfold Hospital_patients, Hospital_icu_patients.
    repeat split; auto; apply Hothers; discriminate. }
  destruct (decide (tag = hospitalised)) as [-> | Hward].
  { destruct (Group_add_spec "medical_facility" patients h p)
      as (h' & p' & Hrun & Hpeople & Hothers & _).
    exists (Ok tt), h', p'. split; [exact Hrun |].
    split; [discriminate |].
    split; [| congruence].
    intros _. unfold Hospital_patients, Hospital_icu_patients.
    repeat split; auto; apply Hothers; discriminate. }
  exists (Raise AssertionError), h, p.
  rewrite !bool_decide_eq_false_2 by assumption.
  split; [reflexivity |].
  repeat split; intros; congruence.
Qed.

(** C3. [full] holds exactly when the patients subgroup has at least
    [n_beds] people and [full_ICU] exactly when the ICU subgroup has at
    least [n_icu_beds]; right after an admission the predicate is the
    comparison with one more person, so it turns true with the admission
    that reaches the threshold and not before. *)
Theorem full_iff_threshold (h : Hospital) (p : Person) :
  (full h = true <-> size (Hospital_patients h) >= n_beds h) /\
  (full_ICU h = true <-> size (Hospital_icu_patients h) >= n_icu_beds h) /\
  (full (Hospital_add patients (h, p)).2.1 = true
     <-> size (Hospital_patients h) + 1 >= n_beds h) /\
  (full_ICU (Hospital_add icu_patients (h, p)).2.1 = true
     <-> size (Hospital_icu_patients h) + 1 >= n_icu_beds h) /\
  full_ICU (Hospital_add patients (h, p)).2.1 = full_ICU h /\
  full (Hospital_add icu_patients (h, p)).2.1 = full h.
Proof.
  unfold full, full_ICU, Hospital_patients, Hospital_icu_patients.
  repeat split; try (rewrite Z.leb_le; lia).
  all: try (rewrite Z.leb_le; simpl; rewrite size_append; simpl; lia).
  all: try (intros Hge; apply Z.leb_le; simpl; rewrite size_append; simpl; lia).
Qed.

(** C7. Adding to [patients] or to [icu_patients] returns normally and
    makes that subgroup one person larger, whatever [full] and [full_ICU]
    say: the predicates are not consulted. *)
Theorem add_not_blocked_by_capacity (h : Hospital) (p : Person) (t : SubgroupType) :
  t = patients \/ t = icu_patients ->
  exists h' p',
    Hospital_add t (h, p) = (Ok tt, (h', p')) /\
    size (getitem h' t) = size (getitem h t) + 1 /\
    people (getitem h' t) = people (getitem h t) ++ [person_id p].
Proof.
  intros Ht. rewrite (Hospital_add_medical t Ht).
  destruct (Group_add_spec "medical_facility" t h p)
    as (h' & p' & Hrun & Hpeople & _).
  exists h', p'. split; [assumption |]. split; [| assumption].
  unfold size. rewrite Hpeople, length_app. simpl. lia.
Qed.

(** C9, as the code has it. The constructor stores the two bed counts it
    is given and checks nothing, so a hospital's capacities are
    non-negative at construction when the numbers passed are. *)
Theorem Hospital_init_stores_beds (next_id : nat) (nb ni : Z)
    (a : option string) (c : option Coord) (tc : option string) :
  n_beds (Hospital_init next_id nb ni a c tc) = nb /\
  n_icu_beds (Hospital_init next_id nb ni a c tc) = ni /\
  (0 <= nb -> 0 <= ni ->
   0 <= n_beds (Hospital_init next_id nb ni a c tc) /\
   0 <= n_icu_beds (Hospital_init next_id nb ni a c tc)).
Proof. simpl. auto. Qed.

Lemma Hospital_add_any_tag (t : SubgroupType) :
  Hospital_add_any (PyTag t) = Hospital_add t.
Proof. destruct t; reflexivity. Qed.

Lemma py_in_patient_tags (v : PyValue) :
  py_in v [patients; icu_patients] = true <->
  v = PyTag patients \/ v = PyTag icu_patients \/ v = PyInt 1 \/ v = PyInt 2.
Proof.
  unfold py_in. cbn [existsb]. rewrite orb_false_r, orb_true_iff.
  destruct v as [t | z | | s]; cbn [py_eq SubgroupType_value].
  - rewrite !bool_decide_eq_true. split.
    + intros [-> | ->]; auto.
    + intros [[= ->] | [[= ->] | [? | ?]]]; auto; discriminate.
  - rewrite !Z.eqb_eq. split.
    + intros [-> | ->]; auto.
    + intros [? | [? | [[= ->] | [= ->]]]]; auto; discriminate.
  - split; [intros [? | ?]; discriminate |].
    intros [? | [? | [? | ?]]]; discriminate.
  - split; [intros [? | ?]; discriminate |].
    intros [? | [? | [? | ?]]]; discriminate.
Qed.

(** C10. With any value for the subgroup type that is neither
    [patients] nor [icu_patients] (the tags themselves or the integers 1
    and 2 they are equal to), be it the default [workers], another
    integer, [None] or a string, [add] does not fail and is the worker
    addition: the call it makes is [Group.add] with the activity
    "primary_activity" and the subgroup [workers], the person joins
    [workers], and the two patient subgroups stay as they were. The
    four values left out are the ones that do go to a patient subgroup. *)
Theorem add_other_tag_is_worker (h : Hospital) (p : Person) (v : PyValue) :
  (v <> PyTag patients -> v <> PyTag icu_patients ->
   v <> PyInt 1 -> v <> PyInt 2 ->
   exists h' p',
     Hospital_add_any v (h, p) = (Ok tt, (h', p')) /\
     Hospital_add_any v (h, p) = Group_add "primary_activity" workers (h, p) /\
     people (getitem h' workers) = people (getitem h workers) ++ [person_id p] /\
     Hospital_patients h' = Hospital_patients h /\
     Hospital_icu_patients h' = Hospital_icu_patients h) /\
  (v = PyTag patients \/ v = PyInt 1 ->
   Hospital_add_any v (h, p) = Group_add "medical_facility" patients (h, p)) /\
  (v = PyTag icu_patients \/ v = PyInt 2 ->
   Hospital_add_any v (h, p) = Group_add "medical_facility" icu_patients (h, p)).
Proof.
  split; [| split; intros [-> | ->]; reflexivity].
  intros Hp Hi Hp1 Hi2.
  assert (py_in v [patients; icu_patients] = false) as Hout.
  { apply not_true_is_false. rewrite py_in_patient_tags. tauto. }
  unfold Hospital_add_any. rewrite Hout.
  destruct (Group_add_spec "primary_activity" workers h p)
    as (h' & p' & Hrun & Hpeople & Hothers & _).
  exists h', p'. unfold Hospital_patients, Hospital_icu_patients.
  repeat split; auto; apply Hothers; discriminate.
Qed.

(** A person whose classification has a threshold is admitted. *)
Lemma add_as_patient_succeeds (h : Hospital) (p : Person) (tag : SymptomTag)
    (is_full : Hospital -> bool) :
  infection p = Some tag ->
  threshold tag = Some is_full ->
  exists h' p',
    add_as_patient (h, p) = (Ok tt, (h', p')) /\
    (person_id p ∈ people (Hospital_patients h') \/
     person_id p ∈ people (Hospital_icu_patients h')).
Proof.
  intros Htag Hthr.
  unfold add_as_patient, bind, get. cbn [snd]. rewrite Htag.
  unfold threshold in Hthr.
  case_bool_decide as Hicu.
  - destruct (Group_add_spec "medical_facility" icu_patients h p)
      as (h' & p' & Hrun & Hpeople & _).
    exists h', p'. split; [exact Hrun |]. right.
    unfold Hospital_icu_patients. rewrite Hpeople. set_solver.
  - case_bool_decide as Hward; [| discriminate].
    destruct (Group_add_spec "medical_facility" patients h p)
      as (h' & p' & Hrun & Hpeople & _).
    exists h', p'. split; [exact Hrun |]. left.
    unfold Hospital_patients. rewrite Hpeople. set_solver.
Qed.

(** The candidate that [choose] picks. *)
Lemma choose_spec (is_full : Hospital -> bool) (candidates : list Hospital) (draw : nat) :
  candidates <> [] ->
  exists h,
    candidates !! choose is_full candidates draw = Some h /\
    ((exists h0, h0 ∈ candidates /\ is_full h0 = false) ->
       is_full h = false /\
       forall j h0, (j < choose is_full candidates draw)%nat ->
         candidates !! j = Some h0 -> is_full h0 = true) /\
    (Forall (fun h0 => is_full h0 = true) candidates ->
       choose is_full candidates draw = (draw mod length candidates)%nat).
Proof.
  intros Hne. unfold choose.
  destruct (list_find _ candidates) as [[j h] |] eqn:Hfind.
  - apply list_find_Some in Hfind as (Hj & Hroom & Hfirst).
    exists h. split; [exact Hj |]. split.
    + intros _. split; [exact Hroom |].
      intros j' h0 Hlt Hj'. apply not_false_iff_true. eauto.
    + intros Hall. rewrite Forall_forall in Hall.
      rewrite (Hall h) in Hroom; [discriminate |].
      eapply list_elem_of_lookup_2, Hj.
  - apply list_find_None in Hfind. rewrite Forall_forall in Hfind.
    assert (draw mod length candidates < length candidates)%nat as Hlt.
    { apply Nat.mod_upper_bound. destruct candidates; [congruence | discriminate]. }
    apply lookup_lt_is_Some in Hlt as [h Hh].
    exists h. split; [exact Hh |]. split; [| reflexivity].
    intros (h0 & Hin & Hroom). destruct (Hfind h0 Hin Hroom).
Qed.

(** ** The collection, for any numerical library *)

Section CollectionProperties.
Context `{Numerics}.

(** What a successful construction returns. *)
Lemma Hospitals_init_Ok (hospitals : list Hospital) (nh : option Z)
    (box bt : bool) (self : Hospitals) :
  Hospitals_init hospitals nh box bt = Ok self ->
  members self = hospitals /\
  box_mode self = box /\
  neighbour_hospitals self = nh /\
  ((bt = false \/ hospitals = []) /\ hospital_trees self = None
   \/
   (bt = true /\ hospitals <> []) /\
   exists coords,
     mapM coordinates hospitals = Some coords /\
     hospital_trees self = Some (mkBallTree (deg2rad_row <$> coords))).
Proof.
  unfold Hospitals_init. cbn [members].
  destruct bt; cbn [andb].
  - case_bool_decide as Hne.
    + destruct (mapM coordinates hospitals) as [coords |] eqn:Hcoords;
        [| discriminate].
      intros [= <-]. cbn. repeat split. right. eauto.
    + intros [= <-]. cbn. repeat split. left. split; [| reflexivity].
      right. destruct hospitals; [reflexivity | discriminate Hne].
  - intros [= <-]. cbn. repeat split. left. auto.
Qed.

Lemma mapM_coordinates_lookup (hospitals : list Hospital) (coords : list Coord) :
  mapM coordinates hospitals = Some coords ->
  length coords = length hospitals /\
  forall i h, hospitals !! i = Some h ->
    exists c, coordinates h = Some c /\ coords !! i = Some c.
Proof.
  intros Hm. split.
  - symmetry. eapply length_mapM, Hm.
  - apply mapM_Some in Hm. intros i h Hi.
    destruct (Forall2_lookup_l _ _ _ _ _ Hm Hi) as (c & Hc & Hhc).
    eauto.
Qed.

(** C5. Box mode gives exactly two hospitals, the first with 10 beds
    and 2 ICU beds, the second with 5000 and 5000, neither with
    coordinates; the collection has no tree and [neighbour_hospitals]
    is [None]. *)
Theorem for_box_mode_two_hospitals (next_id : nat) :
  exists h1 h2,
    for_box_mode next_id =
      Ok {| members := [h1; h2]; box_mode := true;
            neighbour_hospitals := None; hospital_trees := None |} /\
    (n_beds h1 = 10 /\ n_icu_beds h1 = 2 /\ coordinates h1 = None) /\
    (n_beds h2 = 5000 /\ n_icu_beds h2 = 5000 /\ coordinates h2 = None).
Proof.
  eexists _, _. split.
  - unfold for_box_mode, Hospitals_init. cbn. reflexivity.
  - cbn. repeat split.
Qed.

(** The tree built by the constructor has one row per member, in the
    order of [members]. *)
Lemma tree_rows_are_members (hospitals : list Hospital) (nh : option Z)
    (box bt : bool) (self : Hospitals) (tree : BallTree) :
  Hospitals_init hospitals nh box bt = Ok self ->
  hospital_trees self = Some tree ->
  members self <> [] /\
  length (data tree) = length (members self) /\
  forall i h, members self !! i = Some h ->
    exists c, coordinates h = Some c /\ data tree !! i = Some (deg2rad_row c).
Proof.
  intros Hinit Htree.
  destruct (Hospitals_init_Ok _ _ _ _ _ Hinit) as (Hmem & _ & _ & Hcases).
  destruct Hcases as [[_ Hnone] | [[_ Hne] (coords & Hcoords & Hsome)]];
    [congruence |].
  rewrite Hsome in Htree. injection Htree as <-. cbn [data].
  destruct (mapM_coordinates_lookup _ _ Hcoords) as [Hlen Hrows].
  rewrite Hmem, length_fmap. split; [exact Hne |]. split; [exact Hlen |].
  intros i h Hi. destruct (Hrows i h Hi) as (c & Hc & Hci).
  exists c. split; [exact Hc |].
  rewrite list_lookup_fmap, Hci. reflexivity.
Qed.

(** Positions that are all within [members] are all looked up, in
    their order. *)
Lemma positions_in_range (self : Hospitals) (idxs : list nat) :
  Forall (fun i => (i < length (members self))%nat) idxs ->
  exists found,
    collect (member_at self) idxs = Ok found /\
    length found = length idxs /\
    forall j i, idxs !! j = Some i -> found !! j = members self !! i.
Proof.
  induction 1 as [| i idxs Hi _ (found & Hrun & Hlen & Hat)].
  - exists []. repeat split. intros j i Hj. discriminate.
  - apply lookup_lt_is_Some in Hi as [h Hh].
    exists (h :: found). cbn [collect]. unfold member_at at 1.
    rewrite Hh. cbn [result_bind]. rewrite Hrun.
    split; [reflexivity |]. split; [cbn; congruence |].
    intros [| j] i' Hj; cbn in Hj |- *.
    + injection Hj as <-. symmetry. exact Hh.
    + apply Hat, Hj.
Qed.

(** A position past the members stops the lookup with [IndexError]. *)
Lemma position_out_of_range (self : Hospitals) (idxs : list nat) :
  Exists (fun i => (length (members self) <= i)%nat) idxs ->
  collect (member_at self) idxs = Raise IndexError.
Proof.
  induction idxs as [| i idxs IH]; intros Hex; [inversion Hex |].
  cbn [collect]. unfold member_at at 1.
  destruct (members self !! i) as [h |] eqn:Hh; [| reflexivity].
  cbn [result_bind]. rewrite IH; [reflexivity |].
  apply Exists_cons in Hex as [Hout | Hrest]; [| exact Hrest].
  apply lookup_ge_None in Hout. congruence.
Qed.

(** C6. The hospitals that [get_closest_hospitals] returns are the
    members standing at the positions that [get_closest_hospitals_idx]
    returns, as many and in the same order: the hospital at place [j] of
    the one is the member at the position at place [j] of the other.
    Where the index lookup raises, so does the hospital lookup, with the
    same exception; a position past the last member makes the hospital
    lookup raise [IndexError]. The rows of the tree are the coordinates
    of the members, position by position, so that a position of a row is
    the position of the member it belongs to. *)
Theorem closest_hospitals_follow_idx (hospitals : list Hospital) (nh : option Z)
    (box bt : bool) (self : Hospitals) :
  Hospitals_init hospitals nh box bt = Ok self ->
  (forall p k e,
     get_closest_hospitals_idx self p k = Raise e ->
     get_closest_hospitals self p k = Raise e) /\
  (forall p k idxs,
     get_closest_hospitals_idx self p k = Ok idxs ->
     (Forall (fun i => (i < length (members self))%nat) idxs ->
      exists found,
        get_closest_hospitals self p k = Ok found /\
        length found = length idxs /\
        forall j i, idxs !! j = Some i -> found !! j = members self !! i) /\
     (Exists (fun i => (length (members self) <= i)%nat) idxs ->
      get_closest_hospitals self p k = Raise IndexError)) /\
  (forall tree, hospital_trees self = Some tree ->
     length (data tree) = length (members self) /\
     forall i h, members self !! i = Some h ->
       exists c, coordinates h = Some c /\ data tree !! i = Some (deg2rad_row c)).
Proof.
  intros Hinit. split; [| split].
  - intros p k e. unfold get_closest_hospitals, get_closest_hospitals_idx.
    destruct (hospital_trees self) as [tree |]; [| intros [= <-]; reflexivity].
    cbv zeta.
    destruct (BallTree_query tree (deg2rad_row p) _) as [[distances neighbours] | e'];
      cbn [result_bind]; [discriminate | intros [= <-]; reflexivity].
  - intros p k idxs. unfold get_closest_hospitals, get_closest_hospitals_idx.
    destruct (hospital_trees self) as [tree |]; [| discriminate].
    cbv zeta.
    destruct (BallTree_query tree (deg2rad_row p) _) as [[distances neighbours] | e'];
      cbn [result_bind]; [| discriminate].
    intros [= <-]. split.
    + apply positions_in_range.
    + apply position_out_of_range.
  - intros tree Htree.
    destruct (tree_rows_are_members _ _ _ _ _ _ Hinit Htree) as (_ & Hlen & Hrows).
    auto.
Qed.

(** C8. A collection built without a tree (the flag off, no member, or
    box mode) has no [hospital_trees] attribute, and both queries
    raise [AttributeError] on it. *)
Theorem query_without_index_raises (hospitals : list Hospital) (nh : option Z)
    (box bt : bool) (next_id : nat) (self : Hospitals) (p : Coord) (k : Z) :
  (Hospitals_init hospitals nh box bt = Ok self /\ (bt = false \/ hospitals = []))
  \/ for_box_mode next_id = Ok self ->
  hospital_trees self = None /\
  get_closest_hospitals self p k = Raise AttributeError /\
  get_closest_hospitals_idx self p k = Raise AttributeError.
Proof.
  intros Hbuilt.
  assert (hospital_trees self = None) as Hnone.
  { destruct Hbuilt as [[Hinit Hoff] | Hbox].
    - destruct (Hospitals_init_Ok _ _ _ _ _ Hinit) as (_ & _ & _ & Hcases).
      destruct Hcases as [[_ Hn] | [[Hbt Hne] _]]; [exact Hn |].
      destruct Hoff; congruence.
    - unfold for_box_mode in Hbox.
      destruct (Hospitals_init_Ok _ _ _ _ _ Hbox) as (_ & _ & _ & Hcases).
      destruct Hcases as [[_ Hn] | [[Hbt _] _]]; [exact Hn | discriminate]. }
  unfold get_closest_hospitals, get_closest_hospitals_idx.
  rewrite Hnone. auto.
Qed.

End CollectionProperties.

(** ** The collection over the Geo-Index of the specification *)

Section GeoIndexProperties.
Variable np_deg2rad : Q -> Q.
Variable haversine : Coord -> Coord -> Q.

#[local] Instance geo : Numerics := GeoIndex np_deg2rad haversine.

Local Abbreviation distance := (distance_from np_deg2rad haversine).
Local Abbreviation closer := (not_farther np_deg2rad haversine).
Local Abbreviation ranked := (ranked haversine).
Local Abbreviation allocate := (allocate_patient np_deg2rad haversine).

(** *** The order of the answer *)

Lemma nearer_iff (a b : Q * nat) :
  nearer a b <-> (a.1 < b.1)%Q \/ ((a.1 == b.1)%Q /\ (a.2 <= b.2)%nat).
Proof.
  unfold nearer.
  destruct (Qcompare_spec a.1 b.1) as [Heq | Hlt | Hgt].
  - split; [auto |]. intros [Hlt | [_ Hle]]; [| exact Hle].
    rewrite Heq in Hlt. destruct (Qlt_irrefl _ Hlt).
  - split; auto.
  - split; [intros [] |]. intros [Hlt | [Heq _]].
    + destruct (Qlt_irrefl _ (Qlt_trans _ _ _ Hlt Hgt)).
    + rewrite Heq in Hgt. destruct (Qlt_irrefl _ Hgt).
Qed.

Lemma nearer_Qle (a b : Q * nat) : nearer a b -> (a.1 <= b.1)%Q.
Proof.
  rewrite nearer_iff, Qle_lteq. intros [Hlt | [Heq _]]; auto.
Qed.

#[local] Instance nearer_trans : Transitive nearer.
Proof.
  intros a b c. rewrite !nearer_iff.
  intros [Hab | [Hab Hiab]] [Hbc | [Hbc Hibc]].
  - left. eapply Qlt_trans; eassumption.
  - left. rewrite <- Hbc. exact Hab.
  - left. rewrite Hab. exact Hbc.
  - right. split; [rewrite Hab; exact Hbc | lia].
Qed.

#[local] Instance nearer_total : Total nearer.
Proof.
  intros a b. rewrite !nearer_iff.
  destruct (Qcompare_spec a.1 b.1) as [Heq | Hlt | Hgt]; [| auto | auto].
  destruct (Nat.le_ge_cases a.2 b.2) as [Hle | Hge].
  - left. right. auto.
  - right. right. split; [symmetry; exact Heq | exact Hge].
Qed.

(** *** The rows of the tree, ranked *)

Lemma ranked_sorted (tree : BallTree) (point : Coord) :
  StronglySorted nearer (ranked tree point).
Proof. apply StronglySorted_merge_sort; apply _. Qed.

Lemma ranked_perm (tree : BallTree) (point : Coord) :
  ranked tree point ≡ₚ imap (fun i row => (haversine point row, i)) (data tree).
Proof. apply merge_sort_Permutation. Qed.

Lemma ranked_length (tree : BallTree) (point : Coord) :
  length (ranked tree point) = length (data tree).
Proof. rewrite (Permutation_length (ranked_perm tree point)). apply length_imap. Qed.

Lemma ranked_elem (tree : BallTree) (point : Coord) (d : Q) (i : nat) :
  (d, i) ∈ ranked tree point ->
  exists row, data tree !! i = Some row /\ d = haversine point row.
Proof.
  rewrite (ranked_perm tree point).
  intros Hin. apply list_elem_of_lookup in Hin as [j Hj].
  rewrite list_lookup_imap in Hj.
  destruct (data tree !! j) as [row |] eqn:Hrow; [| discriminate].
  injection Hj as <- <-. eauto.
Qed.

Lemma take_sorted {A} (R : relation A) (n : nat) (l : list A) :
  StronglySorted R l -> StronglySorted R (take n l).
Proof.
  intros Hs. rewrite <- (take_drop n l) in Hs.
  eapply StronglySorted_app_1_l, Hs.
Qed.

Lemma GeoIndex_query_Ok (tree : BallTree) (point : Coord) (k : Z) :
  k <= Z.of_nat (length (data tree)) ->
  GeoIndex_query haversine tree point k =
    Ok ((take (Z.to_nat k) (ranked tree point)).*1,
        (take (Z.to_nat k) (ranked tree point)).*2).
Proof.
  intros Hk. unfold GeoIndex_query.
  destruct (Z.ltb_spec (Z.of_nat (length (data tree))) k); [lia | reflexivity].
Qed.

(** *** From the ranking to the hospitals *)

Lemma collect_member_at (self : Hospitals) (idxs : list nat) :
  Forall (fun i => (i < length (members self))%nat) idxs ->
  collect (member_at self) idxs = Ok ((fun i => members self !!! i) <$> idxs).
Proof.
  induction 1 as [| i idxs Hi _ IH]; [reflexivity |].
  cbn [collect]. unfold member_at at 1.
  rewrite (list_lookup_lookup_total_lt _ _ Hi). cbn [result_bind].
  rewrite IH. reflexivity.
Qed.

Lemma fmap_sorted_on {A B} (f : A -> B) (R1 : relation A) (R2 : relation B)
    (l : list A) :
  (forall x y, x ∈ l -> y ∈ l -> R1 x y -> R2 (f x) (f y)) ->
  StronglySorted R1 l -> StronglySorted R2 (f <$> l).
Proof.
  intros Hmono Hs. induction Hs as [| a l Hs IH Hall]; csimpl; constructor.
  - apply IH. intros x y Hx Hy. apply Hmono; right; assumption.
  - rewrite Forall_fmap. rewrite Forall_forall in Hall |- *.
    intros y Hy. cbn. apply Hmono; [left | right; exact Hy | exact (Hall y Hy)].
Qed.

Section Built.
Variables (hospitals : list Hospital) (nh : option Z) (box bt : bool).
Variables (self : Hospitals) (tree : BallTree).
Hypothesis Hinit : Hospitals_init hospitals nh box bt = Ok self.
Hypothesis Htree : hospital_trees self = Some tree.

Local Abbreviation nearest := (nearest np_deg2rad haversine tree).

Lemma ranked_member (p : Coord) (d : Q) (i : nat) :
  (d, i) ∈ ranked tree (deg2rad_row p) ->
  exists h, members self !! i = Some h /\ distance p h = Some d.
Proof.
  intros Hin.
  destruct (tree_rows_are_members _ _ _ _ _ _ Hinit Htree) as (_ & Hlen & Hrows).
  destruct (ranked_elem _ _ _ _ Hin) as (row & Hrow & ->).
  assert (is_Some (members self !! i)) as [h Hh].
  { apply lookup_lt_is_Some. rewrite <- Hlen.
    apply lookup_lt_is_Some. eauto. }
  destruct (Hrows i h Hh) as (c & Hc & Hci).
  exists h. split; [exact Hh |].
  rewrite Hci in Hrow. injection Hrow as <-.
  unfold distance_from. rewrite Hc. reflexivity.
Qed.

Lemma nearest_subset (p : Coord) (k : Z) (x : Q * nat) :
  x ∈ nearest p k -> x ∈ ranked tree (deg2rad_row p).
Proof.
  unfold nearest. rewrite elem_of_take. intros (j & Hj & _).
  eapply list_elem_of_lookup_2, Hj.
Qed.

Lemma closest_Ok (p : Coord) (k : Z) :
  get_closest_hospitals_idx self p k = Ok (nearest p k).*2 /\
  get_closest_hospitals self p k =
    Ok ((fun x => members self !!! x.2) <$> nearest p k).
Proof.
  unfold get_closest_hospitals_idx, get_closest_hospitals.
  rewrite Htree. cbv zeta. cbn [BallTree_query geo GeoIndex].
  rewrite GeoIndex_query_Ok by lia. cbn [result_bind].
  split; [reflexivity |].
  change (take _ _) with (nearest p k). rewrite collect_member_at.
  - rewrite <- list_fmap_compose. reflexivity.
  - rewrite Forall_fmap, Forall_forall. intros [d i] Hx. cbn.
    apply nearest_subset in Hx.
    destruct (ranked_member _ _ _ Hx) as (h & Hh & _).
    apply lookup_lt_is_Some. eauto.
Qed.

Lemma nearest_length (p : Coord) (k : Z) :
  1 <= k ->
  length (nearest p k) = Nat.min (Z.to_nat k) (length (members self)).
Proof.
  intros Hk.
  destruct (tree_rows_are_members _ _ _ _ _ _ Hinit Htree) as (_ & Hlen & _).
  unfold nearest. rewrite length_take, ranked_length. lia.
Qed.

Lemma nearest_all (p : Coord) (k : Z) :
  Z.of_nat (length (members self)) <= k ->
  (fun x => members self !!! x.2) <$> nearest p k ≡ₚ members self.
Proof.
  intros Hk.
  destruct (tree_rows_are_members _ _ _ _ _ _ Hinit Htree) as (_ & Hlen & _).
  unfold nearest. rewrite take_ge by (rewrite ranked_length; lia).
  rewrite (ranked_perm tree (deg2rad_row p)).
  match goal with |- ?l ≡ₚ _ => replace l with (members self) end;
    [reflexivity |].
  apply list_eq. intros i.
  rewrite list_lookup_fmap, list_lookup_imap.
  destruct (members self !! i) as [h |] eqn:Hh.
  - assert (is_Some (data tree !! i)) as [row ->].
    { apply lookup_lt_is_Some. rewrite Hlen. apply lookup_lt_is_Some. eauto. }
    cbn. rewrite (list_lookup_total_correct _ _ _ Hh). reflexivity.
  - assert (data tree !! i = None) as ->; [| reflexivity].
    apply lookup_ge_None. rewrite Hlen. apply lookup_ge_None. exact Hh.
Qed.

Lemma nearest_sorted (p : Coord) (k : Z) :
  StronglySorted (closer p) ((fun x => members self !!! x.2) <$> nearest p k).
Proof.
  apply (fmap_sorted_on _ nearer).
  - intros [d1 i1] [d2 i2] H1 H2 Hle. cbn.
    apply nearest_subset in H1, H2.
    destruct (ranked_member _ _ _ H1) as (h1 & Hh1 & Hd1).
    destruct (ranked_member _ _ _ H2) as (h2 & Hh2 & Hd2).
    rewrite (list_lookup_total_correct _ _ _ Hh1).
    rewrite (list_lookup_total_correct _ _ _ Hh2).
    unfold not_farther. rewrite Hd1, Hd2.
    exact (nearer_Qle _ _ Hle).
  - apply take_sorted, ranked_sorted.
Qed.

Lemma nearest_members (p : Coord) (k : Z) :
  Forall (fun h => h ∈ members self)
    ((fun x => members self !!! x.2) <$> nearest p k).
Proof.
  rewrite Forall_fmap, Forall_forall. intros [d i] Hx. cbn.
  apply nearest_subset in Hx.
  destruct (ranked_member _ _ _ Hx) as (h & Hh & _).
  rewrite (list_lookup_total_correct _ _ _ Hh).
  eapply list_elem_of_lookup_2, Hh.
Qed.

End Built.

(** C1. On a collection that has a tree, for [k >= 1] the lookup
    returns members only, [min k N] of them for [N] members, each at
    most as far from the point as all that follow it; with [k >= N]
    it returns every member, and does not fail. *)
Theorem closest_hospitals_sorted (hospitals : list Hospital) (nh : option Z)
    (box bt : bool) (self : Hospitals) (p : Coord) (k : Z) :
  Hospitals_init hospitals nh box bt = Ok self ->
  is_Some (hospital_trees self) ->
  1 <= k ->
  exists found,
    get_closest_hospitals self p k = Ok found /\
    length found = Nat.min (Z.to_nat k) (length (members self)) /\
    Forall (fun h => h ∈ members self) found /\
    StronglySorted (closer p) found /\
    (Z.of_nat (length (members self)) <= k -> found ≡ₚ members self).
Proof.
  intros Hinit [tree Htree] Hk.
  destruct (closest_Ok _ _ _ _ _ _ Hinit Htree p k) as [_ Hfound].
  eexists. split; [exact Hfound |].
  rewrite length_fmap.
  split; [eapply nearest_length; eassumption |].
  split; [eapply nearest_members; eassumption |].
  split; [eapply nearest_sorted; eassumption |].
  eapply nearest_all; eassumption.
Qed.

(** C4. On a collection with a tree and [neighbour_hospitals = k >= 1],
    a person whose classification has a threshold is always admitted,
    to a hospital standing at some position [j] among the [k] nearest:
    the first position under the threshold when there is one, and
    otherwise the position the draw selects, the draw reduced modulo
    the number of candidates, so that a uniform draw gives every
    candidate the same chance. *)
Theorem allocate_patient_among_candidates (hospitals : list Hospital) (box bt : bool)
    (self : Hospitals) (person : Person) (location : Coord) (draw : nat)
    (k : Z) (tag : SymptomTag) (is_full : Hospital -> bool) :
  Hospitals_init hospitals (Some k) box bt = Ok self ->
  is_Some (hospital_trees self) ->
  1 <= k ->
  infection person = Some tag ->
  threshold tag = Some is_full ->
  exists candidates neighbours j index h h' self' person',
    get_closest_hospitals self location k = Ok candidates /\
    get_closest_hospitals_idx self location k = Ok neighbours /\
    allocate location draw (self, person) = (Ok index, (self', person')) /\
    (candidates !! j = Some h /\ neighbours !! j = Some index /\
     members self !! index = Some h) /\
    ((exists h0, h0 ∈ candidates /\ is_full h0 = false) ->
       is_full h = false /\
       forall j' h0, (j' < j)%nat -> candidates !! j' = Some h0 -> is_full h0 = true) /\
    (Forall (fun h0 => is_full h0 = true) candidates ->
       j = (draw mod length candidates)%nat) /\
    add_as_patient (h, person) = (Ok tt, (h', person')) /\
    members self' = <[index := h']> (members self) /\
    (person_id person ∈ people (Hospital_patients h') \/
     person_id person ∈ people (Hospital_icu_patients h')).
Proof.
  intros Hinit [tree Htree] Hk Htag Hthr.
  destruct (closest_Ok _ _ _ _ _ _ Hinit Htree location k) as [Hidx Hfound].
  destruct (tree_rows_are_members _ _ _ _ _ _ Hinit Htree) as (Hne & Hlen & _).
  destruct (Hospitals_init_Ok _ _ _ _ _ Hinit) as (_ & _ & Hnh & _).
  pose proof (nearest_length _ _ _ _ _ _ Hinit Htree location k Hk) as Hn.
  set (near := nearest np_deg2rad haversine tree location k) in *.
  set (candidates := (fun x => members self !!! x.2) <$> near) in *.
  assert (candidates <> []) as Hcand.
  { intros Hnil. apply (f_equal length) in Hnil.
    unfold candidates in Hnil. rewrite length_fmap, Hn in Hnil. cbn in Hnil.
    destruct (members self); [congruence | cbn in Hnil; lia]. }
  destruct (choose_spec is_full candidates draw Hcand) as (h & Hj & Hfirst & Hover).
  set (j := choose is_full candidates draw) in *.
  unfold candidates in Hj. rewrite list_lookup_fmap in Hj.
  destruct (near !! j) as [[d index] |] eqn:Hnear; [| discriminate].
  cbn in Hj. injection Hj as Hh.
  assert (members self !! index = Some h) as Hmember.
  { assert ((d, index) ∈ ranked tree (deg2rad_row location)) as Hin.
    { eapply nearest_subset. eapply list_elem_of_lookup_2, Hnear. }
    destruct (ranked_member _ _ _ _ _ _ Hinit Htree _ _ _ Hin) as (h0 & Hh0 & _).
    rewrite (list_lookup_total_correct _ _ _ Hh0) in Hh. congruence. }
  destruct (add_as_patient_succeeds h person tag is_full Htag Hthr)
    as (h' & person' & Hadd & Hplaced).
  exists candidates, near.*2, j, index, h, h'.
  eexists _, person'.
  split; [exact Hfound |]. split; [exact Hidx |].
  split.
  { unfold allocate_patient, bind, get, lift, ret. cbn [fst snd].
    rewrite Htag, Hthr, Hnh.
    change (GeoIndex np_deg2rad haversine) with geo.
    rewrite Hidx, Hfound.
    fold candidates. fold j.
    rewrite list_lookup_fmap, Hnear. cbn [fmap option_fmap option_map snd].
    unfold on_member. rewrite Hmember, Hadd. reflexivity. }
  split.
  { split; [| split; [| exact Hmember]].
    - unfold candidates. rewrite list_lookup_fmap, Hnear. cbn. congruence.
    - rewrite list_lookup_fmap, Hnear. reflexivity. }
  split; [exact Hfirst |]. split; [exact Hover |].
  split; [exact Hadd |]. split; [reflexivity | exact Hplaced].
Qed.

End GeoIndexProperties.

(** ** The statements on the small world *)

Module Runs.
Import Sample.

#[local] Existing Instance numerics.

Example closest_idx_of_three :
  get_closest_hospitals_idx world (1 # 1, 0 # 1)%Q 5 = Ok [0; 2; 1]%nat.
Proof. vm_compute. reflexivity. Qed.

Example closest_of_three :
  get_closest_hospitals world (4 # 1, 0 # 1)%Q 2 = Ok [east; centre].
Proof. vm_compute. reflexivity. Qed.

Example raw_query_beyond_rows :
  GeoIndex_query planar tree (1 # 1, 0 # 1)%Q 5 = Raise ValueError.
Proof. reflexivity. Qed.

(** The scenario of the specification: the nearest hospital is full,
    the second nearest has room, and the ward patient goes there. *)
Example second_nearest_takes_patient :
  (allocate_patient unit_degrees planar (0 # 1, 0 # 1)%Q 0 (busy_world, ward_patient)).1
    = Ok 2%nat.
Proof. vm_compute. reflexivity. Qed.

Example mild_case_rejected :
  add_as_patient (west, mild_case) = (Raise AssertionError, (west, mild_case)).
Proof. reflexivity. Qed.

Example uninfected_rejected :
  add_as_patient (west, nurse) = (Raise AttributeError, (west, nurse)).
Proof. reflexivity. Qed.

Lemma add_as_patient_routes_witness :
  infection icu_patient = Some intensive_care /\
  exists r h' p',
    add_as_patient (west, icu_patient) = (r, (h', p')) /\
    r = Ok tt /\
    people (Hospital_icu_patients h') = [43%nat].
Proof.
  split; [reflexivity |].
  destruct (add_as_patient_routes west icu_patient intensive_care eq_refl)
    as (r & h' & p' & Hrun & Hicu & _ & _).
  exists r, h', p'. split; [exact Hrun |].
  destruct (Hicu eq_refl) as (Hr & Hpeople & _).
  split; [exact Hr | exact Hpeople].
Defined.

Lemma full_iff_threshold_witness :
  full west = false /\
  full (Hospital_add patients (west, ward_patient)).2.1 = true /\
  full_ICU (Hospital_add patients (west, ward_patient)).2.1 = full_ICU west.
Proof.
  split; [reflexivity |].
  destruct (full_iff_threshold west ward_patient)
    as (_ & _ & [_ Hcross] & _ & Hicu & _).
  split; [apply Hcross; vm_compute; discriminate | exact Hicu].
Defined.

Lemma add_not_blocked_by_capacity_witness :
  full west_taken = true /\
  exists h' p',
    Hospital_add patients (west_taken, ward_patient) = (Ok tt, (h', p')) /\
    size (getitem h' patients) = 2.
Proof.
  split; [reflexivity |].
  destruct (add_not_blocked_by_capacity west_taken ward_patient patients (or_introl eq_refl))
    as (h' & p' & Hrun & Hsize & _).
  exists h', p'. split; [exact Hrun | exact Hsize].
Defined.

Lemma Hospital_init_stores_beds_witness :
  0 <= 10 /\ 0 <= 2 /\
  0 <= n_beds (Hospital_init 0 10 2 None None None) /\
  0 <= n_icu_beds (Hospital_init 0 10 2 None None None).
Proof.
  split; [lia |]. split; [lia |].
  apply (Hospital_init_stores_beds 0 10 2 None None None); lia.
Defined.

(** C9 as stated fails: nothing stops a negative bed count. *)
Lemma Hospital_init_negative_beds :
  ~ (0 <= n_beds (Hospital_init 0 (-1) (-1) None None None) /\
     0 <= n_icu_beds (Hospital_init 0 (-1) (-1) None None None)).
Proof. cbn. lia. Qed.

Example unrecognized_tags_are_workers :
  Hospital_add_any (PyStr "patients") (west, nurse) = Hospital_add workers (west, nurse) /\
  Hospital_add_any PyNone (west, nurse) = Hospital_add workers (west, nurse) /\
  Hospital_add_any (PyInt 7) (west, nurse) = Hospital_add workers (west, nurse) /\
  Hospital_add_any (PyInt 0) (west, nurse) = Hospital_add workers (west, nurse) /\
  Hospital_add_any (PyInt 1) (west, nurse) = Hospital_add patients (west, nurse) /\
  Hospital_add_any (PyInt 2) (west, nurse) = Hospital_add icu_patients (west, nurse).
Proof. repeat split. Qed.

Lemma add_other_tag_is_worker_witness :
  (PyStr "visitor" <> PyTag patients /\ PyStr "visitor" <> PyTag icu_patients /\
   PyStr "visitor" <> PyInt 1 /\ PyStr "visitor" <> PyInt 2) /\
  (exists h' p',
     Hospital_add_any (PyStr "visitor") (west, nurse) = (Ok tt, (h', p')) /\
     people (getitem h' workers) = [45%nat]) /\
  (exists h' p',
     Hospital_add_any (PyInt 7) (west, nurse) = (Ok tt, (h', p')) /\
     people (getitem h' workers) = [45%nat]) /\
  (exists h' p',
     Hospital_add_any PyNone (west, nurse) = (Ok tt, (h', p')) /\
     people (getitem h' workers) = [45%nat]) /\
  (exists h' p',
     Hospital_add_any (PyTag workers) (west, nurse) = (Ok tt, (h', p')) /\
     people (getitem h' workers) = [45%nat]).
Proof.
  split; [repeat split; discriminate |].
  repeat split.
  - destruct (add_other_tag_is_worker west nurse (PyStr "visitor")) as [Hworker _].
    destruct Hworker as (h' & p' & Hrun & _ & Hpeople & _); try discriminate.
    exists h', p'. split; [exact Hrun | exact Hpeople].
  - destruct (add_other_tag_is_worker west nurse (PyInt 7)) as [Hworker _].
    destruct Hworker as (h' & p' & Hrun & _ & Hpeople & _); try discriminate.
    exists h', p'. split; [exact Hrun | exact Hpeople].
  - destruct (add_other_tag_is_worker west nurse PyNone) as [Hworker _].
    destruct Hworker as (h' & p' & Hrun & _ & Hpeople & _); try discriminate.
    exists h', p'. split; [exact Hrun | exact Hpeople].
  - destruct (add_other_tag_is_worker west nurse (PyTag workers)) as [Hworker _].
    destruct Hworker as (h' & p' & Hrun & _ & Hpeople & _); try discriminate.
    exists h', p'. split; [exact Hrun | exact Hpeople].
Defined.

Lemma closest_hospitals_follow_idx_witness :
  Hospitals_init [west; east; centre] (Some 2) false true = Ok world /\
  get_closest_hospitals_idx world (4 # 1, 0 # 1)%Q 2 = Ok [1; 2]%nat /\
  Forall (fun i => (i < length (members world))%nat) [1; 2]%nat /\
  exists found,
    get_closest_hospitals world (4 # 1, 0 # 1)%Q 2 = Ok found /\
    length found = 2%nat /\
    found !! 0%nat = members world !! 1%nat /\
    found !! 1%nat = members world !! 2%nat.
Proof.
  assert (get_closest_hospitals_idx world (4 # 1, 0 # 1)%Q 2 = Ok [1; 2]%nat) as Hidx
    by (vm_compute; reflexivity).
  assert (Forall (fun i => (i < length (members world))%nat) [1; 2]%nat) as Hin
    by (repeat constructor).
  split; [reflexivity |]. split; [exact Hidx |]. split; [exact Hin |].
  destruct (closest_hospitals_follow_idx [west; east; centre] (Some 2) false true world)
    as (_ & Hat & _); [reflexivity |].
  destruct (Hat (4 # 1, 0 # 1)%Q 2 [1; 2]%nat Hidx) as [Hok _].
  destruct (Hok Hin) as (found & Hrun & Hlen & Hplaces).
  exists found. split; [exact Hrun |]. split; [exact Hlen |].
  split; apply Hplaces; reflexivity.
Defined.

Lemma query_without_index_raises_witness :
  for_box_mode 0 = Ok box_world /\
  get_closest_hospitals box_world (1 # 1, 0 # 1)%Q 1 = Raise AttributeError /\
  get_closest_hospitals_idx box_world (1 # 1, 0 # 1)%Q 1 = Raise AttributeError.
Proof.
  split; [reflexivity |].
  apply (query_without_index_raises [] None false false 0 box_world (1 # 1, 0 # 1)%Q 1).
  right. reflexivity.
Defined.

Lemma closest_hospitals_sorted_witness :
  Hospitals_init [west; east; centre] (Some 2) false true = Ok world /\
  is_Some (hospital_trees world) /\
  1 <= 5 /\
  exists found,
    get_closest_hospitals world (1 # 1, 0 # 1)%Q 5 = Ok found /\
    length found = 3%nat /\
    StronglySorted (not_farther unit_degrees planar (1 # 1, 0 # 1)%Q) found.
Proof.
  split; [reflexivity |]. split; [eexists; reflexivity |]. split; [lia |].
  destruct (closest_hospitals_sorted unit_degrees planar
              [west; east; centre] (Some 2) false true world (1 # 1, 0 # 1)%Q 5)
    as (found & Hrun & Hlen & _ & Hsorted & _);
    [reflexivity | eexists; reflexivity | lia |].
  exists found. split; [exact Hrun |]. split; [exact Hlen | exact Hsorted].
Defined.

Lemma allocate_patient_among_candidates_witness :
  Hospitals_init [no_beds west; no_beds east; no_beds centre] (Some 2) false true
    = Ok full_world /\
  is_Some (hospital_trees full_world) /\
  1 <= 2 /\
  infection ward_patient = Some hospitalised /\
  threshold hospitalised = Some full /\
  exists index self' person',
    allocate_patient unit_degrees planar (0 # 1, 0 # 1)%Q 1 (full_world, ward_patient)
      = (Ok index, (self', person')).
Proof.
  split; [reflexivity |]. split; [eexists; reflexivity |]. split; [lia |].
  split; [reflexivity |]. split; [reflexivity |].
  destruct (allocate_patient_among_candidates unit_degrees planar
              [no_beds west; no_beds east; no_beds centre] false true
              full_world ward_patient (0 # 1, 0 # 1)%Q 1 2 hospitalised full)
    as (candidates & neighbours & j & index & h & h' & self' & person' & _ & _ & Hrun & _);
    [reflexivity | eexists; reflexivity | lia | reflexivity | reflexivity |].
  exists index, self', person'. exact Hrun.
Defined.

Example overflow_draw_decides :
  (allocate_patient unit_degrees planar (0 # 1, 0 # 1)%Q 1 (full_world, ward_patient)).1
    = Ok 2%nat /\
  (allocate_patient unit_degrees planar (0 # 1, 0 # 1)%Q 0 (full_world, ward_patient)).1
    = Ok 0%nat.
Proof. split; vm_compute; reflexivity. Qed.

End Runs.


(** * Further properties of the code *)

(** ** One hospital *)

Lemma Hospital_add_is_Group_add (t : SubgroupType) :
  Hospital_add t =
  Group_add (if decide (t = workers) then "primary_activity" else "medical_facility") t.
Proof. destruct t; reflexivity. Qed.

Lemma Hospital_add_static (t : SubgroupType) (h : Hospital) (p : Person) :
  let h' := (Hospital_add t (h, p)).2.1 in
  id h' = id h /\ n_beds h' = n_beds h /\ n_icu_beds h' = n_icu_beds h /\
  coordinates h' = coordinates h /\ area h' = area h /\
  trust_code h' = trust_code h.
Proof.
  rewrite Hospital_add_is_Group_add. unfold Group_add. cbn [fst snd].
  destruct t; repeat split.
Qed.

Lemma Hospital_add_sizes (t u : SubgroupType) (h : Hospital) (p : Person) :
  let h' := (Hospital_add t (h, p)).2.1 in
  size (getitem h' u) = size (getitem h u) + (if decide (t = u) then 1 else 0).
Proof.
  rewrite Hospital_add_is_Group_add. unfold Group_add. cbn [fst snd].
  case_decide as Htu.
  - subst u. rewrite getitem_setitem. apply size_append.
  - rewrite getitem_setitem_ne by exact Htu. lia.
Qed.

(** X1. [add_as_patient] is all or nothing: it returns normally exactly for
    the two classifications that warrant a bed, and whenever it raises
    the hospital and the person are what they were. *)
Theorem add_as_patient_all_or_nothing (h : Hospital) (p : Person) :
  ((infection p = Some intensive_care \/ infection p = Some hospitalised) /\
   (add_as_patient (h, p)).1 = Ok tt)
  \/
  ((infection p <> Some intensive_care /\ infection p <> Some hospitalised) /\
   exists e, add_as_patient (h, p) = (Raise e, (h, p))).
Proof.
  unfold add_as_patient, bind, get. cbn [snd].
  destruct (infection p) as [tag |] eqn:Htag.
  - destruct tag; cbn;
      first [ left; split; [auto | reflexivity]
            | right; split; [split; discriminate | eauto] ].
  - right. split; [split; discriminate | eauto].
Qed.

(** X2. No addition ever takes anybody out or touches the capacities: every
    subgroup is at least as large afterwards, a hospital that is full
    (or full in its ICU) stays so, and adding a worker changes neither
    predicate. *)
Theorem full_never_resets (t : SubgroupType) (h : Hospital) (p : Person) :
  let h' := (Hospital_add t (h, p)).2.1 in
  (forall u, size (getitem h u) <= size (getitem h' u)) /\
  (full h = true -> full h' = true) /\
  (full_ICU h = true -> full_ICU h' = true) /\
  (t = workers -> full h' = full h /\ full_ICU h' = full_ICU h).
Proof.
  intros h'.
  destruct (Hospital_add_static t h p) as (_ & Hb & Hi & _).
  fold h' in Hb, Hi.
  assert (forall u, size (getitem h u) <= size (getitem h' u)) as Hgrow.
  { intros u. unfold h'. rewrite Hospital_add_sizes. case_decide; lia. }
  split; [exact Hgrow |].
  unfold full, full_ICU. rewrite Hb, Hi.
  split; [| split].
  - rewrite !Z.leb_le. specialize (Hgrow patients). lia.
  - rewrite !Z.leb_le. specialize (Hgrow icu_patients). lia.
  - intros ->. unfold h'.
    rewrite (Hospital_add_sizes workers patients).
    rewrite (Hospital_add_sizes workers icu_patients).
    cbn. rewrite !Z.add_0_r. auto.
Qed.

Lemma add_all_spec (t : SubgroupType) (persons : list Person) (h : Hospital) :
  n_beds (add_all t persons h) = n_beds h /\
  n_icu_beds (add_all t persons h) = n_icu_beds h /\
  forall u,
    size (getitem (add_all t persons h) u) =
    size (getitem h u) + (if decide (t = u) then Z.of_nat (length persons) else 0).
Proof.
  revert h. induction persons as [| p persons IH]; intros h.
  - cbn -[size]. repeat split. intros u. case_decide; lia.
  - cbn [add_all fold_left].
    change (fold_left _ persons ?x) with (add_all t persons x).
    destruct (IH (Hospital_add t (h, p)).2.1) as (Hb & Hi & Hs).
    destruct (Hospital_add_static t h p) as (_ & Hb' & Hi' & _).
    rewrite Hb, Hi. repeat split; try assumption.
    intros u. rewrite Hs, Hospital_add_sizes. cbn [length].
    case_decide; lia.
Qed.

(** X3. A hospital as it is constructed, given [k] patients, is full exactly
    when [k] reaches [n_beds], and likewise for the ICU: the threshold is
    counted from an empty subgroup, and a hospital constructed with no
    beds is full from the start. *)
Theorem full_after_admissions (next_id : nat) (nb ni : Z) (a : option string)
    (c : option Coord) (tc : option string) (persons : list Person) :
  (full (add_all patients persons (Hospital_init next_id nb ni a c tc)) = true
     <-> nb <= Z.of_nat (length persons)) /\
  (full_ICU (add_all icu_patients persons (Hospital_init next_id nb ni a c tc)) = true
     <-> ni <= Z.of_nat (length persons)) /\
  full_ICU (add_all patients persons (Hospital_init next_id nb ni a c tc))
    = full_ICU (Hospital_init next_id nb ni a c tc) /\
  full (add_all workers persons (Hospital_init next_id nb ni a c tc))
    = full (Hospital_init next_id nb ni a c tc).
Proof.
  set (h := Hospital_init next_id nb ni a c tc).
  unfold full, full_ICU.
  destruct (add_all_spec patients persons h) as (Hb1 & Hi1 & Hs1).
  destruct (add_all_spec icu_patients persons h) as (Hb2 & Hi2 & Hs2).
  destruct (add_all_spec workers persons h) as (Hb3 & Hi3 & Hs3).
  rewrite Hb1, Hi1, Hi2, Hb3.
  rewrite (Hs1 patients), (Hs1 icu_patients), (Hs2 icu_patients), (Hs3 patients).
  assert (size (getitem h patients) = 0) as -> by reflexivity.
  assert (size (getitem h icu_patients) = 0) as -> by reflexivity.
  rewrite !decide_True by reflexivity.
  rewrite !decide_False by discriminate.
  change (n_beds h) with nb. change (n_icu_beds h) with ni.
  rewrite !Z.leb_le. repeat split; lia.
Qed.

(** ** Building the hospitals from rows *)

Lemma append_loop {A} (mk : nat -> A -> Hospital) (n : nat) (rows : list A)
    (acc : list Hospital) :
  fold_left (fun hospitals row => hospitals ++ [mk (n + length hospitals)%nat row]) rows acc
  = acc ++ imap (fun i row => mk (n + length acc + i)%nat row) rows.
Proof.
  revert acc. induction rows as [| row rows IH]; intros acc.
  - cbn. rewrite app_nil_r. reflexivity.
  - cbn [fold_left]. rewrite IH, imap_cons, length_app. cbn [length].
    rewrite <- app_assoc. cbn [app]. do 2 f_equal.
    + rewrite Nat.add_0_r. reflexivity.
    + apply imap_ext. intros i x _. cbn.
      replace (n + (length acc + 1) + i)%nat with (n + length acc + S i)%nat by lia.
      reflexivity.
Qed.

Lemma init_hospitals_imap (n : nat) (hospital_df : list HospitalRow) :
  init_hospitals n hospital_df =
  imap (fun i row =>
          Hospital_init (n + i) (beds row) (icu_beds row) None
            (Some (latitude row, longitude row)) (Some (code row)))
       hospital_df.
Proof.
  unfold init_hospitals.
  rewrite (append_loop
             (fun i row => Hospital_init i (beds row) (icu_beds row) None
                             (Some (latitude row, longitude row)) (Some (code row)))).
  cbn [app length]. apply imap_ext. intros i row _. do 2 f_equal. lia.
Qed.

Lemma in_index_loc (hospital_df : list HospitalRow) (name : string) :
  name ∈ row_index <$> hospital_df <-> loc hospital_df name <> [].
Proof.
  unfold loc. split.
  - intros Hin Hnil. apply list_elem_of_fmap in Hin as (row & -> & Hrow).
    exact (filter_nil_not_elem_of _ _ row Hnil eq_refl Hrow).
  - intros Hne. destruct (filter _ hospital_df) as [| row rows] eqn:Hf; [congruence |].
    assert (row ∈ filter (fun row => row_index row = name) hospital_df) as Hin
      by (rewrite Hf; left).
    apply list_elem_of_filter in Hin as [<- Hin].
    apply list_elem_of_fmap_2, Hin.
Qed.

Lemma rows_by_area_cons (area : string) (areas : list string)
    (hospital_df : list HospitalRow) :
  rows_by_area (area :: areas) hospital_df =
  ((fun row => (area, row)) <$> loc hospital_df area) ++ rows_by_area areas hospital_df.
Proof. reflexivity. Qed.

Lemma hospitals_of_rows_app (k : nat) (l1 l2 : list (string * HospitalRow)) :
  hospitals_of_rows k (l1 ++ l2) =
  hospitals_of_rows k l1 ++ hospitals_of_rows (k + length l1) l2.
Proof.
  unfold hospitals_of_rows. rewrite imap_app. f_equal.
  apply imap_ext. intros i ar _. f_equal. lia.
Qed.

Lemma hospitals_of_rows_length (k : nat) (l : list (string * HospitalRow)) :
  length (hospitals_of_rows k l) = length l.
Proof. apply length_imap. Qed.

Lemma inner_loop (n : nat) (area : string) (here : list HospitalRow)
    (acc : list Hospital) :
  match here with
  | [row] => acc ++ [create_hospital_from_df_row (n + length acc) area row]
  | rows =>
      fold_left
        (fun hospitals row =>
           hospitals ++ [create_hospital_from_df_row (n + length hospitals) area row])
        rows acc
  end
  = acc ++ hospitals_of_rows (n + length acc) ((fun row => (area, row)) <$> here).
Proof.
  transitivity
    (fold_left
       (fun hospitals row =>
          hospitals ++ [create_hospital_from_df_row (n + length hospitals) area row])
       here acc).
  { destruct here as [| row [| row' rows]]; reflexivity. }
  rewrite (append_loop (fun i row => create_hospital_from_df_row i area row)).
  unfold hospitals_of_rows. rewrite imap_fmap. reflexivity.
Qed.

(** The loop of [for_geography] returns what it started with followed by
    a prefix of the hospitals of all rows by area; the prefix is not
    empty when there is a row, and is everything when [total_hospitals]
    is the number of hospitals there would be in all. *)
Lemma for_geography_loop_prefix (hospital_df : list HospitalRow) (total n : nat)
    (areas : list string) (acc : list Hospital) :
  exists m,
    for_geography_loop hospital_df total n areas acc =
      acc ++ take m (hospitals_of_rows (n + length acc) (rows_by_area areas hospital_df)) /\
    (rows_by_area areas hospital_df <> [] -> (0 < m)%nat) /\
    (total = (length acc + length (rows_by_area areas hospital_df))%nat ->
     (length (rows_by_area areas hospital_df) <= m)%nat).
Proof.
  revert acc. induction areas as [| area areas IH]; intros acc.
  { exists 0%nat. cbn. rewrite app_nil_r. repeat split; [congruence | lia]. }
  cbn [for_geography_loop]. rewrite rows_by_area_cons, inner_loop.
  set (here := loc hospital_df area).
  set (pairs := (fun row => (area, row)) <$> here).
  assert (length pairs = length here) as Hpairs by apply length_fmap.
  rewrite hospitals_of_rows_app.
  set (acc' := acc ++ hospitals_of_rows (n + length acc) pairs).
  assert (length acc' = (length acc + length here)%nat) as Hlen.
  { unfold acc'. rewrite length_app, hospitals_of_rows_length. lia. }
  case_bool_decide as Hin.
  - apply in_index_loc in Hin. fold here in Hin.
    assert (0 < length here)%nat as Hpos.
    { destruct here; [congruence | cbn; lia]. }
    case_bool_decide as Hbreak.
    + exists (length here). split; [| split].
      * rewrite take_app_length' by (rewrite hospitals_of_rows_length; lia).
        reflexivity.
      * intros _. exact Hpos.
      * rewrite length_app. lia.
    + destruct (IH acc') as (m & Hrun & _ & Hall).
      exists (length here + m)%nat. split; [| split].
      * rewrite Hrun. unfold acc' at 1. rewrite <- app_assoc. f_equal.
        rewrite take_app_add' by (rewrite hospitals_of_rows_length; lia).
        rewrite Hlen, Hpairs. do 3 f_equal. lia.
      * intros _. lia.
      * rewrite length_app. intros Htotal.
        assert (length (rows_by_area areas hospital_df) <= m)%nat by (apply Hall; lia).
        lia.
  - assert (here = []) as Hnil.
    { destruct (decide (here = [])) as [| Hne]; [assumption |].
      exfalso. apply Hin, in_index_loc, Hne. }
    unfold acc', pairs in *. rewrite Hnil in *. cbn [fmap list_fmap app length] in *.
    destruct (IH acc) as (m & Hrun & Hpos & Hall).
    exists m. unfold hospitals_of_rows at 1. cbn [imap app].
    rewrite Nat.add_0_r. auto.
Qed.

Lemma loc_filter (areas : list string) (hospital_df : list HospitalRow) (area : string) :
  area ∈ areas ->
  loc (filter (fun row => row_index row ∈ areas) hospital_df) area = loc hospital_df area.
Proof.
  intros Hin. unfold loc. rewrite list_filter_filter.
  apply list_filter_iff. intros row. split; [tauto |].
  intros Heq. split; [exact Heq | rewrite Heq; exact Hin].
Qed.

Lemma rows_by_area_filter (areas' areas : list string) (hospital_df : list HospitalRow) :
  areas' ⊆ areas ->
  rows_by_area areas' (filter (fun row => row_index row ∈ areas) hospital_df)
  = rows_by_area areas' hospital_df.
Proof.
  induction areas' as [| area areas' IH]; intros Hsub; [reflexivity |].
  rewrite !rows_by_area_cons, loc_filter, IH; [reflexivity | set_solver | set_solver].
Qed.

Lemma filter_label_cons (area : string) (areas : list string)
    (hospital_df : list HospitalRow) :
  area ∉ areas ->
  length (filter (fun row => row_index row ∈ area :: areas) hospital_df)
  = (length (loc hospital_df area)
     + length (filter (fun row => row_index row ∈ areas) hospital_df))%nat.
Proof.
  intros Hfresh. unfold loc.
  induction hospital_df as [| row rows IH]; [reflexivity |].
  rewrite !filter_cons.
  destruct (decide (row_index row = area)) as [Heq | Hne].
  - rewrite decide_True by (rewrite Heq; left).
    rewrite (decide_False (P := row_index row ∈ areas)) by (rewrite Heq; exact Hfresh).
    cbn [length]. lia.
  - destruct (decide (row_index row ∈ areas)) as [Hin | Hout].
    + rewrite decide_True by (right; exact Hin). cbn [length]. lia.
    + rewrite decide_False; [exact IH |].
      intros Hin. apply elem_of_cons in Hin as [? | ?]; contradiction.
Qed.

Lemma rows_by_area_length (areas : list string) (hospital_df : list HospitalRow) :
  NoDup areas ->
  length (rows_by_area areas hospital_df)
  = length (filter (fun row => row_index row ∈ areas) hospital_df).
Proof.
  induction 1 as [| area areas Hfresh _ IH].
  - cbn. induction hospital_df as [| row rows IHrows]; [reflexivity |].
    rewrite filter_cons_False; [exact IHrows | apply not_elem_of_nil].
  - rewrite rows_by_area_cons, length_app, length_fmap, IH.
    symmetry. apply filter_label_cons, Hfresh.
Qed.

Lemma rows_by_area_elem (areas : list string) (hospital_df : list HospitalRow)
    (area : string) (row : HospitalRow) :
  (area, row) ∈ rows_by_area areas hospital_df <->
  area ∈ areas /\ row ∈ hospital_df /\ row_index row = area.
Proof.
  unfold rows_by_area. rewrite list_elem_of_bind. split.
  - intros (a & Hin & Ha). apply list_elem_of_fmap in Hin as (r & [= -> ->] & Hr).
    apply list_elem_of_filter in Hr as [Hlabel Hr]. auto.
  - intros (Ha & Hr & Hlabel). exists area. split; [| exact Ha].
    apply list_elem_of_fmap. exists row. split; [reflexivity |].
    apply list_elem_of_filter. auto.
Qed.

Section ConstructionProperties.
Context `{Numerics} `{Geography}.

Lemma Hospitals_init_located (hospitals : list Hospital) (nh : option Z) (box bt : bool) :
  Forall (fun h => is_Some (coordinates h)) hospitals ->
  exists self, Hospitals_init hospitals nh box bt = Ok self.
Proof.
  intros Hall. unfold Hospitals_init.
  destruct (bt && bool_decide (_ <> [])); [| eauto].
  destruct (mapM_is_Some_2 coordinates hospitals) as [coords ->]; [| eauto].
  eapply Forall_impl; [exact Hall | auto].
Qed.

(** X5. When a tree is asked for and there are members, a member without
    coordinates makes the constructor raise [TypeError]: [np.deg2rad]
    fails on the array holding [None], before the tree is reached. With
    the tree switched off, or with no member, the constructor returns
    the members and the two settings as given and no tree, whatever the
    coordinates are. The two hospitals of box mode have no coordinates:
    they can be held by a collection only with the tree switched off. *)
Theorem Hospitals_init_without_coordinates (hospitals : list Hospital)
    (nh : option Z) (box bt : bool) :
  (bt = true -> hospitals <> [] ->
   Exists (fun h => coordinates h = None) hospitals ->
   Hospitals_init hospitals nh box bt = Raise TypeError) /\
  (bt = false \/ hospitals = [] ->
   Hospitals_init hospitals nh box bt =
     Ok {| members := hospitals; box_mode := box;
           neighbour_hospitals := nh; hospital_trees := None |}) /\
  (forall next_id self, for_box_mode next_id = Ok self ->
     Hospitals_init (members self) nh box true = Raise TypeError).
Proof.
  assert (forall l, l <> [] -> Exists (fun h => coordinates h = None) l ->
            Hospitals_init l nh box true = Raise TypeError) as Hraise.
  { intros l Hne Hex. unfold Hospitals_init. cbn [members andb].
    rewrite bool_decide_eq_true_2 by exact Hne.
    apply mapM_None in Hex. rewrite Hex. reflexivity. }
  split; [| split].
  - intros -> Hne Hex. apply Hraise; assumption.
  - intros Hoff. unfold Hospitals_init. cbn [members].
    destruct Hoff as [-> | ->]; [reflexivity |].
    rewrite bool_decide_eq_false_2 by (intros Hne; apply Hne; reflexivity).
    rewrite andb_false_r. reflexivity.
  - intros next_id self Hbox.
    unfold for_box_mode in Hbox.
    destruct (Hospitals_init_Ok _ _ _ _ _ Hbox) as (-> & _).
    apply Hraise; [discriminate |]. left. reflexivity.
Qed.

Lemma hospitals_of_rows_elem (n : nat) (pairs : list (string * HospitalRow)) (h : Hospital) :
  h ∈ hospitals_of_rows n pairs ->
  exists i a row, pairs !! i = Some (a, row) /\ h = create_hospital_from_df_row (n + i) a row.
Proof.
  unfold hospitals_of_rows. intros Hin.
  apply elem_of_lookup_imap in Hin as (i & [a row] & -> & Hi). eauto.
Qed.

Lemma for_geography_Ok (n : nat) (areas : list string)
    (hospital_df : list HospitalRow) (nh : option Z) :
  exists self m,
    for_geography n areas hospital_df nh = Ok self /\
    members self = take m (hospitals_of_rows n (rows_by_area areas hospital_df)) /\
    box_mode self = false /\
    neighbour_hospitals self = nh /\
    (rows_by_area areas hospital_df <> [] -> (0 < m)%nat) /\
    (NoDup areas -> (length (rows_by_area areas hospital_df) <= m)%nat) /\
    (hospital_trees self = None <-> members self = []).
Proof.
  unfold for_geography. cbv zeta.
  destruct (for_geography_loop_prefix
              (filter (fun row => row_index row ∈ areas) hospital_df)
              (length (filter (fun row => row_index row ∈ areas) hospital_df))
              n areas [])
    as (m & Hrun & Hpos & Hall).
  rewrite rows_by_area_filter in Hrun, Hpos, Hall by reflexivity.
  cbn [app length] in Hrun, Hall. rewrite Nat.add_0_r in Hrun.
  rewrite Hrun.
  set (hospitals := take m (hospitals_of_rows n (rows_by_area areas hospital_df))).
  destruct (Hospitals_init_located hospitals nh false true) as [self Hself].
  { apply Forall_take, Forall_forall. intros h Hh.
    apply hospitals_of_rows_elem in Hh as (i & a & row & _ & ->). cbn. eauto. }
  destruct (Hospitals_init_Ok _ _ _ _ _ Hself) as (Hmem & Hbox & Hnh & Hcases).
  exists self, m. rewrite Hmem.
  split; [exact Hself |]. split; [reflexivity |]. split; [exact Hbox |].
  split; [exact Hnh |]. split; [exact Hpos |]. split.
  - intros Hnodup. apply Hall.
    symmetry. apply rows_by_area_length, Hnodup.
  - destruct Hcases as [[[? | Hnil] Hnone] | [[_ Hne] (coords & _ & Hsome)]];
      [discriminate | | ].
    + split; auto.
    + rewrite Hsome. split; [discriminate | contradiction].
Qed.

(** X7. The collection that [from_file] returns, when the tree could be
    built on the coordinates read (the ball tree refuses a NaN, which a
    row of this model, its coordinates being numbers, does not hold):
    one hospital per row, in the order of the rows, with the row's beds,
    coordinates and code and no area; a tree with one row per record,
    holding its latitude and longitude in radians; and no tree when the
    data frame is empty. *)
Theorem from_file_builds (n : nat) (hospital_df : list HospitalRow) (nh : option Z)
    (self : Hospitals) :
  from_file n hospital_df nh = Ok self ->
  box_mode self = false /\
  neighbour_hospitals self = nh /\
  length (members self) = length hospital_df /\
  (forall i row, hospital_df !! i = Some row ->
     members self !! i =
       Some (Hospital_init (n + i) (beds row) (icu_beds row) None
               (Some (latitude row, longitude row)) (Some (code row)))) /\
  hospital_trees self =
    (if decide (hospital_df = []) then None
     else Some (mkBallTree
                  ((fun row => deg2rad_row (latitude row, longitude row)) <$> hospital_df))).
Proof.
  unfold from_file. cbv zeta. rewrite init_hospitals_imap.
  set (mk := fun i row =>
               Hospital_init (n + i) (beds row) (icu_beds row) None
                 (Some (latitude row, longitude row)) (Some (code row))).
  intros Hself.
  destruct (Hospitals_init_Ok _ _ _ _ _ Hself) as (Hmem & Hbox & Hnh & Hcases).
  rewrite Hmem, length_imap.
  split; [exact Hbox |]. split; [exact Hnh |].
  split; [reflexivity |]. split.
  { intros i row Hi. rewrite list_lookup_imap, Hi. reflexivity. }
  destruct Hcases as [[[? | Hnil] Hnone] | [[_ Hne] (coords & Hcoords & Hsome)]];
    [discriminate | |].
  - destruct hospital_df; [| discriminate]. exact Hnone.
  - destruct (decide (hospital_df = [])) as [-> | _]; [contradiction |].
    rewrite Hsome. do 2 f_equal.
    assert (coords = (fun row => (latitude row, longitude row)) <$> hospital_df) as ->.
    { apply mapM_Some in Hcoords. apply list_eq. intros i.
      rewrite list_lookup_fmap.
      destruct (hospital_df !! i) as [row |] eqn:Hrow.
      - assert (imap mk hospital_df !! i = Some (mk i row)) as Hi
          by (rewrite list_lookup_imap, Hrow; reflexivity).
        destruct (Forall2_lookup_l _ _ _ _ _ Hcoords Hi) as (c & -> & Hc).
        cbn in Hc. injection Hc as <-. reflexivity.
      - apply lookup_ge_None. rewrite <- (Forall2_length _ _ _ Hcoords), length_imap.
        apply lookup_ge_None, Hrow. }
    rewrite <- list_fmap_compose. reflexivity.
Qed.

(** X8. The region of a hospital is read through its area, the area's super
    area and that one's region: [region_name] returns a name exactly
    when the whole chain is there, and raises [AttributeError], never
    anything else, when a link is [None]. *)
Theorem region_name_needs_the_chain (h : Hospital) :
  (forall name,
     Hospital_region_name h = Ok name <->
     exists a sa r,
       area h = Some a /\ Area_super_area a = Some sa /\
       SuperArea_region sa = Some r /\ Region_name r = name) /\
  (forall e, Hospital_region_name h = Raise e -> e = AttributeError) /\
  (forall e, Hospital_super_area h = Raise e ->
     Hospital_region h = Raise e /\ Hospital_region_name h = Raise e).
Proof.
  unfold Hospital_region_name, Hospital_region, Hospital_super_area.
  destruct (area h) as [a |]; cbn.
  2: { split; [| split; [congruence | intros e [= <-]; split; reflexivity]].
       intros name. split; [discriminate | intros (? & ? & ? & [=] & _)]. }
  destruct (Area_super_area a) as [sa |] eqn:Hsa; cbn.
  2: { split; [| split; [congruence | discriminate]].
       intros name. split; [discriminate |].
       intros (a' & ? & ? & [= <-] & Hsa' & _). congruence. }
  destruct (SuperArea_region sa) as [r |] eqn:Hr; cbn.
  2: { split; [| split; [congruence | discriminate]].
       intros name. split; [discriminate |].
       intros (a' & sa' & ? & [= <-] & Hsa' & Hr' & _). congruence. }
  split; [| split; discriminate].
  intros name. split.
  - intros [= <-]. eauto 8.
  - intros (a' & sa' & r' & [= <-] & Hsa' & Hr' & <-). congruence.
Qed.

(** X9. The hospitals of box mode and those of [from_file] are constructed
    without an area: on every member of such a collection [super_area],
    [region] and [region_name] raise [AttributeError]. *)
Theorem no_area_without_geography (n : nat) (hospital_df : list HospitalRow)
    (nh : option Z) (self : Hospitals) (h : Hospital) :
  for_box_mode n = Ok self \/ from_file n hospital_df nh = Ok self ->
  h ∈ members self ->
  area h = None /\
  Hospital_super_area h = Raise AttributeError /\
  Hospital_region h = Raise AttributeError /\
  Hospital_region_name h = Raise AttributeError.
Proof.
  intros Hbuilt Hh.
  assert (area h = None) as Harea.
  { destruct Hbuilt as [Hbox | Hfile].
    - unfold for_box_mode in Hbox.
      destruct (Hospitals_init_Ok _ _ _ _ _ Hbox) as (Hmem & _).
      rewrite Hmem in Hh. cbn in Hh.
      apply elem_of_cons in Hh as [-> | Hh]; [reflexivity |].
      apply list_elem_of_singleton in Hh as ->. reflexivity.
    - unfold from_file in Hfile.
      destruct (Hospitals_init_Ok _ _ _ _ _ Hfile) as (Hmem & _).
      rewrite Hmem, init_hospitals_imap in Hh.
      apply elem_of_lookup_imap in Hh as (i & row & -> & _). reflexivity. }
  unfold Hospital_region_name, Hospital_region, Hospital_super_area.
  rewrite Harea. auto.
Qed.

(** X10. The hospitals of the collection that [for_geography] returns
    are, for each area of the geography in turn, those of the rows under
    the area's name, up to the point where the loop is left; when no two
    areas share a name the loop is left only once every row has been
    used, so there is one hospital for each row whose label names an
    area of the geography. *)
Theorem for_geography_early_exit (n : nat) (areas : list string)
    (hospital_df : list HospitalRow) (nh : option Z) (self : Hospitals) :
  for_geography n areas hospital_df nh = Ok self ->
  exists m,
    members self = take m (hospitals_of_rows n (rows_by_area areas hospital_df)) /\
    (NoDup areas ->
       members self = hospitals_of_rows n (rows_by_area areas hospital_df) /\
       length (members self) =
         length (filter (fun row => row_index row ∈ areas) hospital_df)).
Proof.
  intros Hself.
  destruct (for_geography_Ok n areas hospital_df nh)
    as (self' & m & Hrun & Hmem & _ & _ & _ & Hall & _).
  rewrite Hrun in Hself. injection Hself as ->.
  exists m. split; [exact Hmem |].
  intros Hnodup. specialize (Hall Hnodup).
  rewrite Hmem, take_ge by (rewrite hospitals_of_rows_length; exact Hall).
  split; [reflexivity |].
  rewrite hospitals_of_rows_length. apply rows_by_area_length, Hnodup.
Qed.

(** X11. Every hospital of [for_geography] stands in an area of the
    geography and was made from a row of the data frame under that
    area's name, whose beds, coordinates and code it carries; reading its
    [super_area] does not raise. The collection is not in box mode and
    has the configured [neighbour_hospitals]. *)
Theorem for_geography_members (n : nat) (areas : list string)
    (hospital_df : list HospitalRow) (nh : option Z) :
  exists self,
    for_geography n areas hospital_df nh = Ok self /\
    box_mode self = false /\
    neighbour_hospitals self = nh /\
    Forall (fun h =>
              exists a row,
                a ∈ areas /\ row ∈ hospital_df /\ row_index row = a /\
                area h = Some a /\
                n_beds h = beds row /\ n_icu_beds h = icu_beds row /\
                coordinates h = Some (latitude row, longitude row) /\
                trust_code h = Some (code row) /\
                Hospital_super_area h = Ok (Area_super_area a))
           (members self).
Proof.
  destruct (for_geography_Ok n areas hospital_df nh)
    as (self & m & Hrun & Hmem & Hbox & Hnh & _).
  exists self. split; [exact Hrun |]. split; [exact Hbox |]. split; [exact Hnh |].
  rewrite Hmem. apply Forall_take, Forall_forall. intros h Hh.
  apply hospitals_of_rows_elem in Hh as (i & a & row & Hi & ->).
  apply list_elem_of_lookup_2, rows_by_area_elem in Hi as (Ha & Hrow & Hlabel).
  exists a, row. repeat split; assumption.
Qed.

(** X12. A geography none of whose areas labels a row yields the empty
    collection, and only such a geography does; the empty collection
    has no tree, so both nearest-hospital queries raise
    [AttributeError] on it. *)
Theorem for_geography_without_hospitals (n : nat) (areas : list string)
    (hospital_df : list HospitalRow) (nh : option Z) :
  exists self,
    for_geography n areas hospital_df nh = Ok self /\
    (members self = [] <->
     forall row, row ∈ hospital_df -> row_index row ∉ areas) /\
    (members self = [] ->
     forall p k,
       get_closest_hospitals self p k = Raise AttributeError /\
       get_closest_hospitals_idx self p k = Raise AttributeError).
Proof.
  destruct (for_geography_Ok n areas hospital_df nh)
    as (self & m & Hrun & Hmem & _ & _ & Hpos & _ & Htree).
  exists self. split; [exact Hrun |]. split.
  - split.
    + intros Hnil row Hrow Hin.
      assert ((row_index row, row) ∈ rows_by_area areas hospital_df) as Hpair
        by (apply rows_by_area_elem; auto).
      assert (rows_by_area areas hospital_df <> []) as Hne
        by (intros Heq; rewrite Heq in Hpair; inversion Hpair).
      specialize (Hpos Hne).
      rewrite Hmem in Hnil. apply (f_equal length) in Hnil.
      rewrite length_take, hospitals_of_rows_length in Hnil. cbn in Hnil.
      destruct (rows_by_area areas hospital_df); [congruence | cbn in Hnil; lia].
    + intros Hnone. rewrite Hmem.
      destruct (rows_by_area areas hospital_df) as [| [a row] rest] eqn:Hrows.
      * unfold hospitals_of_rows. cbn. apply take_nil.
      * assert ((a, row) ∈ rows_by_area areas hospital_df) as Hpair
          by (rewrite Hrows; left).
        apply rows_by_area_elem in Hpair as (Ha & Hrow & Hlabel).
        destruct (Hnone row Hrow). rewrite Hlabel. exact Ha.
  - intros Hnil p k. apply Htree in Hnil.
    unfold get_closest_hospitals, get_closest_hospitals_idx.
    rewrite Hnil. auto.
Qed.

End ConstructionProperties.

(** ** The queries, for any numerical library *)

Section QueryProperties.
Context `{Numerics}.

Lemma collect_Ok {A B} (f : A -> result B) (l : list A) (ys : list B) :
  collect f l = Ok ys -> Forall2 (fun x y => f x = Ok y) l ys.
Proof.
  revert ys. induction l as [| x l IH]; intros ys; cbn.
  - intros [= <-]. constructor.
  - destruct (f x) as [y |] eqn:Hx; cbn; [| discriminate].
    destruct (collect f l) as [ys' |]; cbn; [| discriminate].
    intros [= <-]. constructor; auto.
Qed.

Lemma collect_Raise {A B} (f : A -> result B) (l : list A) (e : Exception) :
  collect f l = Raise e -> exists x, x ∈ l /\ f x = Raise e.
Proof.
  induction l as [| x l IH]; cbn; [discriminate |].
  destruct (f x) as [y |] eqn:Hx; cbn.
  - destruct (collect f l) as [ys' |]; cbn; [discriminate |].
    intros [= <-]. destruct IH as (x' & Hin & Hx'); [reflexivity |].
    exists x'. split; [right; exact Hin | exact Hx'].
  - intros [= <-]. exists x. split; [left | exact Hx].
Qed.

(** X13. Whatever the tree answers, [get_closest_hospitals] returns members
    of the collection only, one for each position that
    [get_closest_hospitals_idx] returns and in that order; where the
    index lookup returns and the hospital lookup does not, the failure
    is an [IndexError] for a position past the last member. *)
Theorem closest_hospitals_only_members (self : Hospitals) (p : Coord) (k : Z) :
  (forall found,
     get_closest_hospitals self p k = Ok found ->
     exists idxs,
       get_closest_hospitals_idx self p k = Ok idxs /\
       length found = length idxs /\
       Forall (fun h => h ∈ members self) found /\
       forall j i, idxs !! j = Some i -> found !! j = members self !! i) /\
  (forall idxs e,
     get_closest_hospitals_idx self p k = Ok idxs ->
     get_closest_hospitals self p k = Raise e ->
     e = IndexError /\
     exists i, i ∈ idxs /\ (length (members self) <= i)%nat).
Proof.
  unfold get_closest_hospitals, get_closest_hospitals_idx.
  destruct (hospital_trees self) as [tree |]; [| split; intros; discriminate].
  cbv zeta.
  destruct (BallTree_query tree (deg2rad_row p) _) as [[distances neighbours] | e0];
    cbn [result_bind]; [| split; intros; discriminate].
  split.
  - intros found Hfound. apply collect_Ok in Hfound.
    exists neighbours. split; [reflexivity |].
    split; [symmetry; eapply Forall2_length, Hfound |].
    split.
    + apply Forall_forall. intros h Hh.
      apply list_elem_of_lookup in Hh as [j Hj].
      destruct (Forall2_lookup_r _ _ _ _ _ Hfound Hj) as (i & _ & Hi).
      unfold member_at in Hi.
      destruct (members self !! i) as [h' |] eqn:Hm; [| discriminate].
      injection Hi as ->. eapply list_elem_of_lookup_2, Hm.
    + intros j i Hj.
      destruct (Forall2_lookup_l _ _ _ _ _ Hfound Hj) as (h & Hh & Hi).
      unfold member_at in Hi.
      destruct (members self !! i) as [h' |]; [| discriminate].
      congruence.
  - intros idxs e [= <-] Hraise.
    apply collect_Raise in Hraise as (i & Hin & Hi).
    unfold member_at in Hi.
    destruct (members self !! i) as [h' |] eqn:Hm; [discriminate |].
    injection Hi as <-. split; [reflexivity |].
    exists i. split; [exact Hin | apply lookup_ge_None, Hm].
Qed.

(** X14. Asking for more neighbours than the collection has members is
    asking for all of them: on a collection as the constructor builds
    it, both queries give for every [k] at or above the number of
    members what they give for that number. *)
Theorem closest_hospitals_clamped (hospitals : list Hospital) (nh : option Z)
    (box bt : bool) (self : Hospitals) (p : Coord) (k : Z) :
  Hospitals_init hospitals nh box bt = Ok self ->
  Z.of_nat (length (members self)) <= k ->
  get_closest_hospitals self p k =
    get_closest_hospitals self p (Z.of_nat (length (members self))) /\
  get_closest_hospitals_idx self p k =
    get_closest_hospitals_idx self p (Z.of_nat (length (members self))).
Proof.
  intros Hinit Hk.
  unfold get_closest_hospitals, get_closest_hospitals_idx.
  destruct (hospital_trees self) as [tree |] eqn:Htree; [| auto].
  destruct (tree_rows_are_members _ _ _ _ _ _ Hinit Htree) as (_ & Hlen & _).
  cbv zeta. rewrite Hlen, Z.min_r by exact Hk. rewrite Z.min_id. auto.
Qed.

Lemma mapM_insert_same {A B} (f : A -> option B) (l : list A) (i : nat) (x y : A) :
  l !! i = Some x -> f y = f x -> mapM f (<[i := y]> l) = mapM f l.
Proof.
  revert i. induction l as [| a l IH]; intros i; [discriminate |].
  destruct i as [| i]; csimpl.
  - intros [= ->] ->. reflexivity.
  - intros Hi Hf. specialize (IH i Hi Hf).
    destruct (f a) as [b |]; [| reflexivity].
    change (mapM f (<[i := y]> l) ≫= (fun k => mret (b :: k))
            = mapM f l ≫= (fun k => mret (b :: k))).
    rewrite IH. reflexivity.
Qed.

(** X15. Additions leave the tree valid: after an addition to a member, the
    collection with that member replaced is the very collection the
    constructor would build from the members as they now are, with the
    tree it already has. *)
Theorem additions_keep_the_tree (hospitals : list Hospital) (nh : option Z)
    (box bt : bool) (self : Hospitals) (i : nat) (h : Hospital)
    (t : SubgroupType) (person : Person) :
  Hospitals_init hospitals nh box bt = Ok self ->
  members self !! i = Some h ->
  let h' := (Hospital_add t (h, person)).2.1 in
  Hospitals_init (<[i := h']> hospitals) nh box bt =
    Ok {| members := <[i := h']> (members self);
          box_mode := box_mode self;
          neighbour_hospitals := neighbour_hospitals self;
          hospital_trees := hospital_trees self |}.
Proof.
  intros Hinit Hi h'.
  destruct (Hospital_add_static t h person) as (_ & _ & _ & Hc & _). fold h' in Hc.
  destruct (Hospitals_init_Ok _ _ _ _ _ Hinit) as (Hmem & _).
  rewrite Hmem in Hi |- *.
  revert Hinit. unfold Hospitals_init. cbn [members].
  assert (bool_decide (<[i := h']> hospitals <> []) = bool_decide (hospitals <> [])) as ->.
  { apply bool_decide_ext. destruct hospitals; [discriminate |].
    destruct i; cbn; split; discriminate. }
  rewrite (mapM_insert_same coordinates hospitals i h h' Hi Hc).
  destruct (bt && _).
  - destruct (mapM coordinates hospitals); [| discriminate].
    intros [= <-]. reflexivity.
  - intros [= <-]. reflexivity.
Qed.

(** X6. The flag [box_mode] and the number [neighbour_hospitals] are only
    recorded: construction succeeds or raises, and the queries answer,
    the same way whatever the two are. A collection constructed with
    [box_mode] on and the tree not switched off is queried like any
    other. *)
Theorem flags_are_only_recorded (hospitals : list Hospital) (nh nh' : option Z)
    (box box' bt : bool) (p : Coord) (k : Z) :
  result_bind (Hospitals_init hospitals nh box bt)
    (fun self => get_closest_hospitals self p k)
  = result_bind (Hospitals_init hospitals nh' box' bt)
      (fun self => get_closest_hospitals self p k) /\
  result_bind (Hospitals_init hospitals nh box bt)
    (fun self => get_closest_hospitals_idx self p k)
  = result_bind (Hospitals_init hospitals nh' box' bt)
      (fun self => get_closest_hospitals_idx self p k) /\
  result_bind (Hospitals_init hospitals nh box bt)
    (fun self => Ok (box_mode self, neighbour_hospitals self))
  = result_bind (Hospitals_init hospitals nh box bt) (fun _ => Ok (box, nh)).
Proof.
  unfold Hospitals_init. cbn [members].
  destruct (bt && _); [destruct (mapM coordinates hospitals) |];
    cbn; repeat split; reflexivity.
Qed.

End QueryProperties.

(** ** The further statements on the small world *)

Module MoreRuns.
Import Sample Records.

#[local] Existing Instance numerics.
#[local] Existing Instance atlas.

Example geography_order_not_row_order :
  result_bind (for_geography 5 ["south"; "north"] frame (Some 3))
    (fun self => Ok ((fun h => (id h, trust_code h)) <$> members self))
  = Ok [(5, Some "S1"); (6, Some "N1"); (7, Some "N2")]%nat.
Proof. vm_compute. reflexivity. Qed.

Example repeated_area_repeats_hospitals :
  result_bind (for_geography 0 ["north"; "north"; "south"] frame None)
    (fun self => Ok (length (members self)))
  = Ok 5%nat.
Proof. vm_compute. reflexivity. Qed.

Lemma full_never_resets_witness :
  full west_taken = true /\
  full (Hospital_add patients (west_taken, ward_patient)).2.1 = true.
Proof.
  split; [reflexivity |].
  destruct (full_never_resets patients west_taken ward_patient) as (_ & Hfull & _).
  apply Hfull. reflexivity.
Defined.

Lemma full_after_admissions_witness :
  2 <= Z.of_nat (length [ward_patient; icu_patient]) /\
  full (add_all patients [ward_patient; icu_patient]
          (Hospital_init 0 2 1 None None None)) = true.
Proof.
  split; [cbn; lia |].
  destruct (full_after_admissions 0 2 1 None None None [ward_patient; icu_patient])
    as ([_ Hfull] & _).
  apply Hfull. cbn. lia.
Defined.

Lemma Hospitals_init_without_coordinates_witness :
  for_box_mode 0 = Ok box_world /\
  Hospitals_init (members box_world) (Some 5) false true = Raise TypeError /\
  Exists (fun h => coordinates h = None) [west; Hospital_init 9 1 1 None None None] /\
  Hospitals_init [west; Hospital_init 9 1 1 None None None] (Some 5) false true
    = Raise TypeError /\
  Hospitals_init [west; Hospital_init 9 1 1 None None None] (Some 5) false false
    = Ok {| members := [west; Hospital_init 9 1 1 None None None]; box_mode := false;
            neighbour_hospitals := Some 5; hospital_trees := None |}.
Proof.
  assert (Exists (fun h => coordinates h = None)
            [west; Hospital_init 9 1 1 None None None]) as Hex
    by (right; left; reflexivity).
  split; [reflexivity |]. split; [| split; [exact Hex |]; split].
  - destruct (Hospitals_init_without_coordinates (members box_world) (Some 5) false true)
      as (_ & _ & Hbox).
    apply (Hbox 0%nat box_world). reflexivity.
  - destruct (Hospitals_init_without_coordinates
                [west; Hospital_init 9 1 1 None None None] (Some 5) false true)
      as (Hraise & _).
    apply Hraise; [reflexivity | discriminate | exact Hex].
  - destruct (Hospitals_init_without_coordinates
                [west; Hospital_init 9 1 1 None None None] (Some 5) false false)
      as (_ & Hoff & _).
    apply Hoff. left. reflexivity.
Defined.

Lemma from_file_builds_witness :
  from_file 5 frame (Some 3) = Ok filed /\
  frame !! 1%nat = Some south /\
  members filed !! 1%nat =
    Some (Hospital_init 6 30 3 None (Some (2 # 1, 0 # 1)%Q) (Some "S1")) /\
  length (members filed) = 4%nat.
Proof.
  assert (from_file 5 frame (Some 3) = Ok filed) as Hrun by reflexivity.
  split; [exact Hrun |]. split; [reflexivity |].
  destruct (from_file_builds 5 frame (Some 3) filed Hrun) as (_ & _ & Hlen & Hrows & _).
  split; [apply (Hrows 1%nat south); reflexivity | exact Hlen].
Defined.

Lemma region_name_needs_the_chain_witness :
  Hospital_region_name (create_hospital_from_df_row 0 "north" north_a) = Ok "region R1" /\
  exists a sa r,
    area (create_hospital_from_df_row 0 "north" north_a) = Some a /\
    Area_super_area a = Some sa /\ SuperArea_region sa = Some r /\
    Region_name r = "region R1".
Proof.
  split; [reflexivity |].
  destruct (region_name_needs_the_chain (create_hospital_from_df_row 0 "north" north_a))
    as (Hchain & _).
  apply Hchain. reflexivity.
Defined.

Lemma no_area_without_geography_witness :
  for_box_mode 0 = Ok box_world /\
  Hospital_init 0 10 2 None None None ∈ members box_world /\
  Hospital_region_name (Hospital_init 0 10 2 None None None) = Raise AttributeError.
Proof.
  split; [reflexivity |]. split; [left |].
  destruct (no_area_without_geography 0 [] None box_world
              (Hospital_init 0 10 2 None None None)) as (_ & _ & _ & Hname);
    [left; reflexivity | left | exact Hname].
Defined.

Lemma for_geography_early_exit_witness :
  for_geography 5 ["south"; "north"] frame (Some 3) = Ok mapped /\
  NoDup ["south"; "north"] /\
  members mapped = hospitals_of_rows 5 (rows_by_area ["south"; "north"] frame) /\
  length (members mapped) = 3%nat.
Proof.
  assert (for_geography 5 ["south"; "north"] frame (Some 3) = Ok mapped) as Hrun
    by (vm_compute; reflexivity).
  assert (NoDup ["south"; "north"]) as Hnodup.
  { apply (bool_decide_unpack _). vm_compute. exact I. }
  split; [exact Hrun |]. split; [exact Hnodup |].
  destruct (for_geography_early_exit 5 ["south"; "north"] frame (Some 3) mapped Hrun)
    as (m & _ & Hall).
  destruct (Hall Hnodup) as [Hmem Hlen].
  split; [exact Hmem | exact Hlen].
Defined.

Lemma for_geography_without_hospitals_witness :
  exists self,
    for_geography 5 ["nowhere"] frame (Some 3) = Ok self /\
    members self = [] /\
    get_closest_hospitals self (0 # 1, 0 # 1)%Q 1 = Raise AttributeError.
Proof.
  destruct (for_geography_without_hospitals 5 ["nowhere"] frame (Some 3))
    as (self & Hrun & [_ Hempty] & Hqueries).
  exists self. split; [exact Hrun |].
  assert (members self = []) as Hnil.
  { apply Hempty. intros row Hrow Hin.
    apply list_elem_of_singleton in Hin.
    repeat (apply elem_of_cons in Hrow as [-> | Hrow]; [discriminate Hin |]).
    inversion Hrow. }
  split; [exact Hnil |].
  apply (Hqueries Hnil).
Defined.

Lemma closest_hospitals_only_members_witness :
  get_closest_hospitals world (4 # 1, 0 # 1)%Q 2 = Ok [east; centre] /\
  exists idxs,
    get_closest_hospitals_idx world (4 # 1, 0 # 1)%Q 2 = Ok idxs /\
    length [east; centre] = length idxs /\
    Forall (fun h => h ∈ members world) [east; centre].
Proof.
  assert (get_closest_hospitals world (4 # 1, 0 # 1)%Q 2 = Ok [east; centre]) as Hrun
    by (vm_compute; reflexivity).
  split; [exact Hrun |].
  destruct (closest_hospitals_only_members world (4 # 1, 0 # 1)%Q 2) as [Hok _].
  destruct (Hok _ Hrun) as (idxs & Hidx & Hlen & Hmem & _).
  exists idxs. auto.
Defined.

Lemma closest_hospitals_clamped_witness :
  Hospitals_init [west; east; centre] (Some 2) false true = Ok world /\
  Z.of_nat (length (members world)) <= 7 /\
  get_closest_hospitals world (4 # 1, 0 # 1)%Q 7 =
    get_closest_hospitals world (4 # 1, 0 # 1)%Q (Z.of_nat (length (members world))).
Proof.
  split; [reflexivity |]. split; [cbn; lia |].
  apply (closest_hospitals_clamped [west; east; centre] (Some 2) false true world);
    [reflexivity | cbn; lia].
Defined.

Lemma additions_keep_the_tree_witness :
  Hospitals_init [west; east; centre] (Some 2) false true = Ok world /\
  members world !! 0%nat = Some west /\
  Hospitals_init
    (<[0%nat := (Hospital_add patients (west, ward_patient)).2.1]> [west; east; centre])
    (Some 2) false true
  = Ok {| members :=
            <[0%nat := (Hospital_add patients (west, ward_patient)).2.1]> (members world);
          box_mode := false;
          neighbour_hospitals := Some 2;
          hospital_trees := Some tree |}.
Proof.
  split; [reflexivity |]. split; [reflexivity |].
  apply (additions_keep_the_tree [west; east; centre] (Some 2) false true world
           0%nat west patients ward_patient); reflexivity.
Defined.

End MoreRuns.
